(** * Contribution-Graph: the grid quantizer and the commit scheduler

    A shallow embedding of [src/github_contribution_generator.py]
    (class [ContributionGenerator]) and the properties its specification
    states about it.

    Conventions of the embedding:
    - Python integers and numpy [int64] cells are [Z]; a numpy [uint8]
      cell is a [Z] with its wrap-around modulo 256 written out;
    - a two-dimensional numpy array is the list of its rows;
    - Python exceptions and [sys.exit] are the [Raise] alternative of
      [result], threaded through the code with a small exception monad;
    - a naive [datetime] is its proleptic Gregorian ordinal (what
      [toordinal()] returns, a bijective image of year/month/day) together
      with its time-of-day fields.  The datetime library has dates from
      ordinal 1 (1 January of year 1) to 3652059 (31 December 9999) and
      time spans of at most 999999999 days: arithmetic that leaves them
      raises [OverflowError], here as in the library;
    - the float64 arithmetic of the bucketing step is computed with
      primitive binary64 floats, the same IEEE 754 format numpy uses;
    - Pillow, git and the terminal are outside the repository: what the
      code receives from them is an input of the model. *)

From Stdlib Require Import ZArith List Lia Bool Sorted Ascii.
From Stdlib Require Floats Uint63.
From stdpp Require Import base option list sorting gmap strings fin_maps.

Local Open Scope Z_scope.

(** ** Exceptions *)

Inductive exn : Type :=
| IndexError
| ValueError
| SystemExit (code : Z)
| OverflowError
| TypeError.

Inductive result (A : Type) : Type :=
| Ok (a : A)
| Raise (e : exn).

Arguments Ok {A} a.
Arguments Raise {A} e.

#[global] Instance result_ret : MRet result := @Ok.
#[global] Instance result_bind : MBind result :=
  λ A B f r, match r with Ok a => f a | Raise e => Raise e end.

(** A [for x in xs:] loop whose body updates the loop state [s] and may
    raise: the first exception leaves the loop. *)
Fixpoint for_each {A S : Type} (xs : list A) (body : A → S → result S)
    (s : S) : result S :=
  match xs with
  | [] => Ok s
  | x :: xs' => s' ← body x s; for_each xs' body s'
  end.

(** Python's [range(n)]: empty when [n <= 0]. *)
Definition range (n : Z) : list Z := seqZ 0 n.

(** ** Naive datetimes *)

Record datetime : Type := mk_datetime {
  ordinal : Z;
  hour : Z;
  minute : Z;
  second : Z;
  microsecond : Z
}.

(** [date.min.toordinal()], [date.max.toordinal()] and
    [timedelta.max.days]. *)
Definition MINORDINAL : Z := 1.
Definition MAXORDINAL : Z := 3652059.
Definition MAXDELTA : Z := 999999999.

(** The values of type [datetime]: the records whose date the library
    has. *)
Definition valid_date (t : datetime) : Prop :=
  MINORDINAL ≤ ordinal t ≤ MAXORDINAL.

(** [timedelta(weeks=w, days=d)], a whole number of days:
    [OverflowError] beyond [MAXDELTA] days in either direction. *)
Definition timedelta (weeks days : Z) : result Z :=
  let d := 7 * weeks + days in
  if (- MAXDELTA <=? d) && (d <=? MAXDELTA) then Ok d
  else Raise OverflowError.

(** The datetime [days] days after [t], at the same time of day, where
    the library has one. *)
Definition shift (t : datetime) (days : Z) : datetime :=
  mk_datetime (ordinal t + days) (hour t) (minute t) (second t)
    (microsecond t).

(** [t + delta] and [t - delta] for a span of whole days:
    [OverflowError] when the date leaves [MINORDINAL..MAXORDINAL]. *)
Definition dt_add (t : datetime) (delta : Z) : result datetime :=
  let o := ordinal t + delta in
  if (MINORDINAL <=? o) && (o <=? MAXORDINAL) then Ok (shift t delta)
  else Raise OverflowError.

Definition dt_sub (t : datetime) (delta : Z) : result datetime :=
  dt_add t (- delta).

(** [date.weekday()]: Monday is 0 and Sunday is 6; ordinal 1 is a Monday. *)
Definition weekday (t : datetime) : Z := (ordinal t + 6) mod 7.

(** [t.replace(hour=h, minute=m)]: [ValueError] outside 0..23 and 0..59. *)
Definition replace (t : datetime) (h m : Z) : result datetime :=
  if (0 <=? h) && (h <? 24) && (0 <=? m) && (m <? 60)
  then Ok (mk_datetime (ordinal t) h m (second t) (microsecond t))
  else Raise ValueError.

(** Comparison of naive datetimes: lexicographic on date, then time. *)
Definition dt_key (t : datetime) : list Z :=
  [ordinal t; hour t; minute t; second t; microsecond t].

Fixpoint lex_leb (a b : list Z) : bool :=
  match a, b with
  | [], _ => true
  | _ :: _, [] => false
  | x :: a', y :: b' => (x <? y) || ((x =? y) && lex_leb a' b')
  end.

Definition dt_leb (s t : datetime) : bool := lex_leb (dt_key s) (dt_key t).
Definition dt_le (s t : datetime) : Prop := dt_leb s t = true.

(** ** Two-dimensional arrays *)

Abbreviation ndarray := (list (list Z)) (only parsing).

Definition has_shape (m : ndarray) (rows cols : nat) : Prop :=
  length m = rows ∧ Forall (λ r, length r = cols) m.

Definition values_in (lo hi : Z) (m : ndarray) : Prop :=
  Forall (Forall (λ v, lo ≤ v ≤ hi)) m.

(** Index normalisation of numpy: a negative index counts from the end. *)
Definition norm_index (i : Z) (n : nat) : option nat :=
  if (0 <=? i) && (i <? Z.of_nat n) then Some (Z.to_nat i)
  else if (- Z.of_nat n <=? i) && (i <? 0) then Some (Z.to_nat (i + Z.of_nat n))
  else None.

(** [m[i, j]] *)
Definition getitem (m : ndarray) (i j : Z) : result Z :=
  match norm_index i (length m) ≫= (m !!.) with
  | Some row =>
      match norm_index j (length row) ≫= (row !!.) with
      | Some v => Ok v
      | None => Raise IndexError
      end
  | None => Raise IndexError
  end.

(** [sum(l)] and [np.sum(m)] *)
Definition sumZ (l : list Z) : Z := foldr Z.add 0 l.
Definition np_sum (m : ndarray) : Z := sumZ (concat m).

(** ** The scheduler *)

Definition GITHUB_WEEKS : Z := 52.
Definition GITHUB_DAYS : Z := 7.
Definition MAX_INTENSITY : Z := 4.

(** The first statements of [generate_commit_dates]: the date of cell
    (row 0, column 0), computed once from [today = datetime.now()]. *)
Definition start_date (today : datetime) (weeks_ago : Z) : result datetime :=
  delta ← timedelta (52 + weeks_ago) 0;
  start_date ← dt_sub today delta;
  let days_since_sunday := weekday start_date + 1 in
  let days_since_sunday :=
    if days_since_sunday =? 7 then 0 else days_since_sunday in
  delta ← timedelta 0 days_since_sunday;
  dt_sub start_date delta.

Definition generate_commit_dates (today : datetime)
    (contribution_matrix : ndarray) (weeks_ago : Z) : result (list datetime) :=
  let commits := [] in
  start_date ← start_date today weeks_ago;
  for_each (range GITHUB_WEEKS) (λ week commits,
    for_each (range GITHUB_DAYS) (λ day commits,
      intensity ← getitem contribution_matrix day week;
      if 0 <? intensity then
        delta ← timedelta week day;
        commit_date ← dt_add start_date delta;
        for_each (range intensity) (λ commit_num commits,
          let hour := 9 + (commit_num * 3) mod 14 in
          let minute := (commit_num * 17) mod 60 in
          commit_time ← replace commit_date hour minute;
          Ok (commits ++ [commit_time])) commits
      else Ok commits) commits) commits.

(** The week offsets at which [today] has an anchor: the day 52 weeks
    and [weeks_ago] weeks before [today], and the Sunday on or before it,
    are dates of the library.  (Its first Sunday is ordinal 7, the 7th of
    January of year 1.) *)
Definition anchor_in_calendar (today : datetime) (weeks_ago : Z) : Prop :=
  MINORDINAL + 6 ≤ ordinal today - 7 * (52 + weeks_ago) ≤ MAXORDINAL.

(** The week offsets at which, moreover, the 363 days after that day are
    dates of the library.  These are exactly the offsets at which all 364
    days of the graph are: the last cell is 363 days after the anchor
    ([in_calendar_window]). *)
Definition in_calendar (today : datetime) (weeks_ago : Z) : Prop :=
  MINORDINAL + 6 ≤ ordinal today - 7 * (52 + weeks_ago) ∧
  ordinal today - 7 * (52 + weeks_ago) + 363 ≤ MAXORDINAL.

(** The commits one cell contributes, and the whole schedule, written as a
    comprehension; [generate_commit_dates_unfold] relates the loops above
    to it. *)
Definition commit_time (commit_date : datetime) (commit_num : Z) : datetime :=
  mk_datetime (ordinal commit_date)
    (9 + (commit_num * 3) mod 14) ((commit_num * 17) mod 60)
    (second commit_date) (microsecond commit_date).

Definition cell (m : ndarray) (day week : Z) : Z :=
  default 0 (m !! Z.to_nat day ≫= (.!! Z.to_nat week)).

Definition cell_commits (start : datetime) (m : ndarray) (week day : Z)
    : list datetime :=
  commit_time (shift start (7 * week + day)) <$> range (cell m day week).

Definition week_commits (start : datetime) (m : ndarray) (week : Z)
    : list datetime :=
  range GITHUB_DAYS ≫= cell_commits start m week.

Definition grid_commits (start : datetime) (m : ndarray) : list datetime :=
  range GITHUB_WEEKS ≫= week_commits start m.

(** The grid of the specification's scenario: 7 rows of 52 cells, all 0
    but cell (row 0, column 0), which is 2. *)
Definition single_cell_grid : ndarray :=
  (2 :: replicate 51 0) :: replicate 6 (replicate 52 0).

(** ** The template registry *)

Abbreviation pattern := (list (list Z)) (only parsing).
Abbreviation registry := (gmap string (list (list Z))) (only parsing).

Definition _load_templates : registry :=
  list_to_map [
    ("skull"%string,
      [ [0;0;2;2;2;2;0;0];
        [0;2;4;2;2;4;2;0];
        [2;4;4;2;2;4;4;2];
        [2;2;2;4;4;2;2;2];
        [2;4;2;2;2;2;4;2];
        [0;2;4;4;4;4;2;0];
        [0;0;2;2;2;2;0;0] ]);
    ("heart"%string,
      [ [0;2;2;0;2;2;0];
        [2;4;4;2;4;4;2];
        [4;4;4;4;4;4;4];
        [4;4;4;4;4;4;4];
        [2;4;4;4;4;4;2];
        [0;2;4;4;4;2;0];
        [0;0;2;2;2;0;0] ]);
    ("smile"%string,
      [ [0;0;2;2;2;2;0;0];
        [0;2;0;2;2;0;2;0];
        [2;0;4;0;0;4;0;2];
        [2;0;0;0;0;0;0;2];
        [2;0;4;0;0;4;0;2];
        [2;0;0;4;4;0;0;2];
        [0;2;0;0;0;0;2;0];
        [0;0;2;2;2;2;0;0] ]);
    ("diamond"%string,
      [ [0;0;0;2;0;0;0];
        [0;0;2;4;2;0;0];
        [0;2;4;4;4;2;0];
        [2;4;4;4;4;4;2];
        [0;2;4;4;4;2;0];
        [0;0;2;4;2;0;0];
        [0;0;0;2;0;0;0] ]);
    ("checkmark"%string,
      [ [0;0;0;0;0;0;2];
        [0;0;0;0;0;2;4];
        [0;0;0;0;2;4;2];
        [2;0;0;2;4;2;0];
        [4;2;2;4;2;0;0];
        [2;4;4;2;0;0;0];
        [0;2;2;0;0;0;0] ])
  ].

(** ** The quantizer, template path *)

(** [np.array(rows)] of a list of integer rows.  Rows of unequal length
    raise [ValueError].  The empty list gives a one-dimensional array, on
    which the [np.pad] of [load_template], its only caller, raises
    [ValueError]: the model raises it here.  The cells are integers
    unless there is none: see [float64_rows]. *)
Definition np_array (rows : pattern) : result ndarray :=
  match rows with
  | [] => Raise ValueError
  | r :: rs =>
      if forallb (λ r', Nat.eqb (length r') (length r)) rs
      then Ok rows else Raise ValueError
  end.


(** [a.shape[0]] and [a.shape[1]] of a two-dimensional array. *)
Definition shape0 (a : ndarray) : Z := Z.of_nat (length a).
Definition shape1 (a : ndarray) : Z := Z.of_nat (length (hd [] a)).

(** [np.pad(a, ((0, n), (0, 0)), 'constant')] *)
Definition pad_rows (a : ndarray) (n : Z) : ndarray :=
  a ++ replicate (Z.to_nat n) (replicate (Z.to_nat (shape1 a)) 0).

(** [np.pad(a, ((0, 0), (0, n)), 'constant')] *)
Definition pad_cols (a : ndarray) (n : Z) : ndarray :=
  (λ r, r ++ replicate (Z.to_nat n) 0) <$> a.

(** [a[:r, :c]] for non-negative bounds; [a[:, :c]] is [slice_cols]. *)
Definition slice_cols (a : ndarray) (c : Z) : ndarray :=
  take (Z.to_nat c) <$> a.
Definition slice (a : ndarray) (r c : Z) : ndarray :=
  slice_cols (take (Z.to_nat r) a) c.

Definition load_template (templates : registry) (template_name : string)
    : result ndarray :=
  match templates !! template_name with
  | None => Raise (SystemExit 1)
  | Some rows =>
      pattern ← np_array rows;
      let pattern :=
        if shape0 pattern <? GITHUB_DAYS then
          let pad_height := GITHUB_DAYS - shape0 pattern in
          pad_rows pattern pad_height
        else pattern in
      let pattern :=
        if shape1 pattern <? GITHUB_WEEKS then
          let pad_width := GITHUB_WEEKS - shape1 pattern in
          pad_cols pattern pad_width
        else if GITHUB_WEEKS <? shape1 pattern then
          slice_cols pattern GITHUB_WEEKS
        else pattern in
      Ok (slice pattern GITHUB_DAYS GITHUB_WEEKS)
  end.

(** The alignment of the template path in the specification's words:
    zero-pad the rows at the bottom up to 7 and the columns on the right up
    to 52 (a negative amount pads nothing), then cut to 7 x 52.
    [load_template_zero_pad_truncate] shows [load_template] computes it. *)
Definition zero_pad_truncate (rows : pattern) : ndarray :=
  slice
    (pad_cols (pad_rows rows (GITHUB_DAYS - shape0 rows))
       (GITHUB_WEEKS - shape1 rows))
    GITHUB_DAYS GITHUB_WEEKS.

(** ** The quantizer, image path *)

(** A mode ['L'] image: the rows of its luminance bytes, which is also
    what [np.array(img)] returns. *)
Abbreviation image := (list (list Z)) (only parsing).

(** uint8 subtraction of numpy, wrapping modulo 256. *)
Definition uint8_sub (a b : Z) : Z := (a - b) mod 256.

(** Conversion of an integer cell to float64, exact below 2^53. *)
Definition float_of_int (z : Z) : PrimFloat.float :=
  if z <? 0 then PrimFloat.opp (PrimFloat.of_uint63 (Uint63.of_Z (- z)))
  else PrimFloat.of_uint63 (Uint63.of_Z z).

(** [.astype(int)]: truncation toward zero; the result numpy gives for
    infinities and NaN is the least int64. *)
Definition astype_int (f : PrimFloat.float) : Z :=
  match FloatOps.Prim2SF f with
  | SpecFloat.S754_zero _ => 0
  | SpecFloat.S754_finite s m e =>
      let a := if 0 <=? e then Z.pos m * 2 ^ e else Z.pos m / 2 ^ (- e) in
      if s then - a else a
  | _ => - 2 ^ 63
  end.

(** One cell of
    [img_array = 255 - img_array;
     img_array = (img_array / 255.0 * self.MAX_INTENSITY).astype(int)];
    the literal [255.0] is [float_of_int 255]. *)
Definition quantize_pixel (v : Z) : Z :=
  let inverted := uint8_sub 255 v in
  astype_int
    (PrimFloat.mul (PrimFloat.div (float_of_int inverted) (float_of_int 255))
       (float_of_int MAX_INTENSITY)).

(** The simplest resampler that meets the contract assumed of Pillow's
    [resize] below (size, byte range, constant images stay constant): every
    output pixel is the top-left pixel of the source. *)
Definition corner_resize (img : image) (size : Z * Z) : image :=
  let v := Z.max 0 (Z.min 255 (default 255 (img !! 0%nat ≫= (.!! 0%nat)))) in
  replicate (Z.to_nat size.2) (replicate (Z.to_nat size.1) v).

(** [try: ... except Exception as e: print(...); sys.exit(1)]:
    [SystemExit] is not an [Exception] and passes through. *)
Definition except_exit {A : Type} (r : result A) : result A :=
  match r with
  | Ok a => Ok a
  | Raise (SystemExit c) => Raise (SystemExit c)
  | Raise _ => Raise (SystemExit 1)
  end.

(** Truth value of an optional string argument: [None] and [''] are false. *)
Definition truthy (s : option string) : bool :=
  match s with
  | Some s => negb (String.eqb s EmptyString)
  | None => false
  end.

(** Lines printed by the methods modelled below. *)
Inductive message : Type :=
| MsgGitRequired
| MsgProcessing
| MsgGenerating
| MsgNoCommits
| MsgWillCreate (commits days : Z)
| MsgQuickPreview                      (* the line 'Quick preview:' *)
| MsgOverwriteWarning (commits : Z) (repo : string)
| MsgDryRun
| MsgCancelled
| MsgImported (count : Z) (json_path : string)
| MsgInvalidFormat
| MsgImportError
| MsgExported (count : Z) (json_path : string)
| MsgExportError.

(** What a call of [push_to_github] did: the message lines it printed
    itself, in order (the rows of glyphs under 'Quick preview:' are left
    out), and either the exception that left it or, on a normal return,
    the write events (one git commit per date) it had
    [create_git_repository] perform. *)
Record run : Type := mk_run {
  stdout : list message;
  returned : result (list datetime)
}.

(** [np.sum(m > 0)] *)
Definition count_positive (m : ndarray) : Z :=
  Z.of_nat (length (filter (λ v, 0 < v) (concat m))).

(** The loops under 'Quick preview:' in [push_to_github]: off a terminal
    the glyph is [chars[intensity]], a list of five entries.  They run
    only when the schedule is not empty: the grid then has a positive
    cell, so its cells are integers. *)
Definition quick_preview (isatty : bool) (m : ndarray) : result unit :=
  for_each (range (Z.min 7 GITHUB_DAYS)) (λ day _,
    for_each (range (Z.min 20 GITHUB_WEEKS)) (λ week _,
      intensity ← getitem m day week;
      if isatty then Ok ()
      else if (-5 <=? intensity) && (intensity <? 5) then Ok ()
      else Raise IndexError) ()) ().

(** [str.lower()] on the ASCII letters, which is all that a comparison
    with ['yes'] can observe. *)
Definition lower_ascii (c : ascii) : ascii :=
  let n := nat_of_ascii c in
  if Nat.leb 65 n && Nat.leb n 90 then ascii_of_nat (n + 32) else c.

Fixpoint lower (s : string) : string :=
  match s with
  | EmptyString => EmptyString
  | String c s' => String (lower_ascii c) (lower s')
  end.

Section Pillow.

(** [img.resize((width, height), Image.Resampling.LANCZOS)] *)
Variable resize : image → Z * Z → image.

(** [Image.open(image_path).convert('L')], and the method
    [generate_text_image], whose body is Pillow font loading and text
    drawing: both are inputs here, and may raise or exit. *)
Variable image_open : option string → result image.
Variable generate_text_image : string → result image.

Definition load_and_process_image (templates : registry)
    (image_path text template : option string) : result ndarray :=
  except_exit
    (if truthy template then
       load_template templates (default EmptyString template)
     else
       img ← (if truthy text
              then generate_text_image (default EmptyString text)
              else image_open image_path) : result image;
       let img := resize img (GITHUB_WEEKS, GITHUB_DAYS) in
       let img_array : ndarray := img in
       let img_array := map (map (uint8_sub 255)) img_array in
       let img_array :=
         map (map (λ v, astype_int
                      (PrimFloat.mul
                         (PrimFloat.div (float_of_int v) (float_of_int 255))
                         (float_of_int MAX_INTENSITY)))) img_array in
       Ok img_array).

(** [push_to_github]; [git_ok] is what [check_git_requirements] returned,
    [isatty] is [sys.stdout.isatty()], [response] is the line read by
    [input], and [create_git_repository] is taken to commit every date
    it is given. *)
Definition push_to_github (git_ok isatty : bool) (today : datetime)
    (response : string) (templates : registry) (repo branch : string)
    (weeks_ago : Z) (image_path text template : option string)
    (dry_run : bool) : run :=
  if negb git_ok then mk_run [MsgGitRequired] (Ok [])
  else
    match load_and_process_image templates image_path text template with
    | Raise e => mk_run [MsgProcessing] (Raise e)
    | Ok contribution_matrix =>
        let out := [MsgProcessing; MsgGenerating] in
        match generate_commit_dates today contribution_matrix weeks_ago with
        | Raise e => mk_run out (Raise e)
        | Ok [] => mk_run (out ++ [MsgNoCommits]) (Ok [])
        | Ok commit_dates =>
            let n := Z.of_nat (length commit_dates) in
            let out :=
              out ++ [MsgWillCreate n (count_positive contribution_matrix);
                      MsgQuickPreview] in
            match quick_preview isatty contribution_matrix with
            | Raise e => mk_run out (Raise e)
            | Ok _ =>
                let out := out ++ [MsgOverwriteWarning n repo] in
                if dry_run then mk_run (out ++ [MsgDryRun]) (Ok [])
                else if negb (String.eqb (lower response) "yes")
                then mk_run (out ++ [MsgCancelled]) (Ok [])
                else mk_run out (Ok commit_dates)
            end
        end
    end.

End Pillow.

(** ** Import and export of the registry *)

(** What [json.load] returns for a file of the model: the members of a
    JSON object that maps names to lists of integer rows (the persistence
    format), in the order of the file, or a JSON value that is not an
    object (an array, a string, a number, [true], [false], [null]).
    The registry holds patterns only, so a JSON object one of whose
    members is not a list of integer rows is not a [document]: such files
    are outside the model, which says nothing about them. *)
Inductive document : Type :=
| DObject (members : list (string * pattern))
| DNotObject.

(** The files [json.load] can read ([contents]: a path that is absent
    stands for a file that is missing or is not JSON) and the paths
    [open(path, 'w')] fails on. *)
Record filesystem : Type := mk_filesystem {
  contents : gmap string document;
  read_only : gset string
}.

(** [json.dump(templates, f, indent=2)] then parsed: one member per key. *)
Definition json_dump (templates : registry) : document :=
  DObject (map_to_list templates).

(** The dict [json.load] builds from an object: the last of several
    members with one name wins. *)
Definition dict_of_members (members : list (string * pattern)) : registry :=
  fold_left (λ d kv, <[kv.1 := kv.2]> d) members ∅.

(** [d.update(data)]: the keys of [data] overwrite, the others stay. *)
Definition update (d data : registry) : registry := data ∪ d.

Definition import_templates (templates : registry) (json_path : string)
    (fs : filesystem) : registry * message :=
  match contents fs !! json_path with
  | None => (templates, MsgImportError)
  | Some DNotObject => (templates, MsgInvalidFormat)
  | Some (DObject members) =>
      let data := dict_of_members members in
      (update templates data, MsgImported (Z.of_nat (size data)) json_path)
  end.

Definition export_templates (templates : registry) (json_path : string)
    (fs : filesystem) : filesystem * message :=
  if decide (json_path ∈ read_only fs) then (fs, MsgExportError)
  else
    (mk_filesystem (<[json_path := json_dump templates]> (contents fs))
       (read_only fs),
     MsgExported (Z.of_nat (size templates)) json_path).

(** The registries a process can hold: the one [__init__] builds, changed
    by imports only. *)
Inductive reachable : registry → Prop :=
| reachable_init : reachable _load_templates
| reachable_import templates json_path fs :
    reachable templates →
    reachable (import_templates templates json_path fs).1.

(** ** Further definitions *)

(** A result that is a value or the exception [e]. *)
Definition ok_or {A : Type} (e : exn) (r : result A) : Prop :=
  match r with
  | Ok _ => True
  | Raise e' => e' = e
  end.

(** ** Printing a grid *)









Section PillowPreview.

Variable resize : image → Z * Z → image.
Variable image_open : option string → result image.
Variable generate_text_image : string → result image.


End PillowPreview.

(** The pop-up preview of a template in [wizard_mode]: one cell of
    [(arr / generator.MAX_INTENSITY * 255).astype('uint8')].  The cast is
    the truncation for the bytes 0..255, which is where the cells 0..4
    land; what numpy gives outside that range depends on the platform and
    is written here as the wrap-around modulo 256. *)
Definition preview_pixel (v : Z) : Z :=
  astype_int
    (PrimFloat.mul (PrimFloat.div (float_of_int v) (float_of_int MAX_INTENSITY))
       (float_of_int 255)) mod 256.

(** ** Git *)

(** How a [subprocess.run(..., check=True)] ends: exit status 0, a
    non-zero status ([CalledProcessError]) or no such program
    ([FileNotFoundError]). *)
Inductive completed : Type :=
| ExitZero
| CalledProcessError
| FileNotFoundError.

Inductive git_message : Type :=
| MsgGitNotConfigured
| MsgGitNotInstalled
| MsgCreating
| MsgProgress (done total : Z)
| MsgAllCreated
| MsgPushing
| MsgPushed (repo : string)
| MsgPushError
| MsgGitOperationFailed.

(** [check_git_requirements], given how [git --version],
    [git config user.name] and [git config user.email] end; the second
    and third run only if what precedes them succeeded. *)
Definition check_git_requirements (version user_name user_email : completed)
    : bool * list git_message :=
  match version with
  | ExitZero =>
      match user_name with
      | ExitZero =>
          match user_email with
          | ExitZero => (true, [])
          | CalledProcessError => (false, [MsgGitNotConfigured])
          | FileNotFoundError => (false, [MsgGitNotInstalled])
          end
      | CalledProcessError => (false, [MsgGitNotConfigured])
      | FileNotFoundError => (false, [MsgGitNotInstalled])
      end
  | _ => (false, [MsgGitNotInstalled])
  end.

(** The date a commit is given: [strftime("%Y-%m-%d %H:%M:%S")] prints
    the date and the time to the second, not the microseconds. *)
Definition date_str (t : datetime) : Z * Z * Z * Z :=
  (ordinal t, hour t, minute t, second t).

(** A commit: the two numbers of its message ["Art pixel i/total"] and
    its author and committer date. *)
Record commit : Type := mk_commit {
  pixel : Z;
  of_total : Z;
  commit_date_str : Z * Z * Z * Z
}.

Inductive git_command : Type :=
| GitInit
| GitCheckout (branch : string)
| GitRemoteAdd (url : string)
| GitAdd
| GitCommit (c : commit)
| GitPush (branch : string).

(** The remote of [create_git_repository], with or without a token. *)
Definition remote_url (pat : option string) (repo : string) : string :=
  if truthy pat
  then "https://" +:+ default EmptyString pat
       +:+ ":x-oauth-basic@github.com/" +:+ repo +:+ ".git"
  else "git@github.com:" +:+ repo +:+ ".git".

(** What a call of [create_git_repository] did: the git commands it ran
    (the last one is the one that failed, if one did), the commits that
    were created, whether the push succeeded, and the lines printed. *)
Record repo_run : Type := mk_repo_run {
  git_calls : list git_command;
  created : list commit;
  pushed : bool;
  printed : list git_message
}.

(** The commit loop of [create_git_repository], from commit number [i]
    (counted from 0) on; [ok n] tells whether the [n]-th git command of
    the call exits with status 0, and [n] is the number of commands run
    so far.  The last component tells whether the loop ran to its end. *)
Fixpoint commit_loop (ok : nat → bool) (total_commits i : Z) (n : nat)
    (commit_dates : list datetime)
    : list git_command * list commit * list git_message * bool :=
  match commit_dates with
  | [] => ([], [], [], true)
  | commit_date :: rest =>
      if negb (ok n) then ([GitAdd], [], [], false)
      else
        let c := mk_commit (i + 1) total_commits (date_str commit_date) in
        if negb (ok (S n)) then ([GitAdd; GitCommit c], [], [], false)
        else
          let line :=
            if ((i + 1) mod 25 =? 0) || (i =? total_commits - 1)
            then [MsgProgress (i + 1) total_commits] else [] in
          let '(calls, commits, lines, finished) :=
            commit_loop ok total_commits (i + 1) (S (S n)) rest in
          (GitAdd :: GitCommit c :: calls, c :: commits, line ++ lines,
           finished)
  end.

(** [create_git_repository]: a git command that fails where the code
    checks its status ends the call with the failure message; the status
    of the push only selects the last line.  Writing the README file in
    the temporary directory is taken to succeed. *)
Definition create_git_repository (ok : nat → bool) (pat : option string)
    (repo branch : string) (commit_dates : list datetime) : repo_run :=
  let setup :=
    [GitInit; GitCheckout branch; GitRemoteAdd (remote_url pat repo)] in
  if negb (ok 0%nat) then
    mk_repo_run (take 1 setup) [] false [MsgGitOperationFailed]
  else if negb (ok 1%nat) then
    mk_repo_run (take 2 setup) [] false [MsgGitOperationFailed]
  else if negb (ok 2%nat) then
    mk_repo_run setup [] false [MsgGitOperationFailed]
  else
    let total_commits := Z.of_nat (length commit_dates) in
    let '(calls, commits, lines, finished) :=
      commit_loop ok total_commits 0 3 commit_dates in
    if finished then
      let push_ok := ok (3 + length calls)%nat in
      mk_repo_run (setup ++ calls ++ [GitPush branch]) commits push_ok
        (MsgCreating :: lines ++
         [MsgAllCreated; MsgPushing;
          if push_ok then MsgPushed repo else MsgPushError])
    else
      mk_repo_run (setup ++ calls) commits false
        (MsgCreating :: lines ++ [MsgGitOperationFailed]).

(** The commits of a schedule, numbered from [i] + 1 on: what the commit
    loop creates when no git command fails. *)
Fixpoint numbered_commits (total_commits i : Z) (commit_dates : list datetime)
    : list commit :=
  match commit_dates with
  | [] => []
  | commit_date :: rest =>
      mk_commit (i + 1) total_commits (date_str commit_date)
      :: numbered_commits total_commits (i + 1) rest
  end.

(** ** Rendering text *)

Section TextImage.

Context {font : Type}.

(** [ImageFont.truetype(path, size)] and [ImageFont.load_default()],
    [None] when they raise; the path of the font file beside the script;
    [textbbox((0, 0), text, font=font)]; and the white canvas of a given
    size with the text drawn on it in black at (2, 2). *)
Variable truetype : string → Z → option font.
Variable load_default : option font.
Variable bundled_font : string.
Variable textbbox : string → font → Z * Z * Z * Z.
Variable draw_text : Z * Z → string → font → image.

Definition font_paths : list string :=
  [bundled_font; "DejaVuSansMono.ttf"; "Courier.ttf"; "courier.ttf"]%string.

(** The loop over [font_paths]: the first font that loads ends it. *)
Fixpoint first_font (font_size : Z) (paths : list string) : option font :=
  match paths with
  | [] => None
  | font_path :: rest =>
      match truetype font_path font_size with
      | Some font => Some font
      | None => first_font font_size rest
      end
  end.

(** [generate_text_image]: the image, and whether the warning about the
    missing monospace font was printed. *)
Definition generate_text_image (text : string) (font_size : Z)
    : result (image * bool) :=
  choice ←
    match first_font font_size font_paths with
    | Some font => Ok (font, false)
    | None =>
        match load_default with
        | Some font => Ok (font, true)
        | None => Raise (SystemExit 1)
        end
    end;
  let '(x0, y0, x1, y1) := textbbox text choice.1 in
  let text_width := x1 - x0 in
  let text_height := y1 - y0 in
  Ok (draw_text (text_width + 4, text_height + 4) text choice.1, choice.2).

End TextImage.

(** * Properties *)

(** ** Loops and indexing *)

Lemma for_each_app_ok {A B : Type} (g : A → list B)
    (body : A → list B → result (list B)) (xs : list A) :
  (∀ x acc, x ∈ xs → body x acc = Ok (acc ++ g x)) →
  ∀ acc, for_each xs body acc = Ok (acc ++ (xs ≫= g)).
Proof.
  induction xs as [|x xs IH]; intros Hbody acc; simpl.
  - by rewrite app_nil_r.
  - rewrite Hbody by left. cbn.
    rewrite IH by (intros; apply Hbody; by right).
    by rewrite app_assoc.
Qed.

(** The converse reading: whatever a loop of appending bodies returns is
    the initial list followed by what each item appended. *)
Lemma for_each_Ok_app {A B : Type} (g : A → list B)
    (body : A → list B → result (list B)) (xs : list A) :
  (∀ x acc acc', x ∈ xs → body x acc = Ok acc' → acc' = acc ++ g x) →
  ∀ acc acc', for_each xs body acc = Ok acc' → acc' = acc ++ (xs ≫= g).
Proof.
  induction xs as [|x xs IH]; intros Hbody acc acc'; simpl.
  - intros [= <-]. by rewrite app_nil_r.
  - destruct (body x acc) as [acc1|e] eqn:Hx; cbn; [|done].
    intros Hrest. apply Hbody in Hx; [|by left]. subst acc1.
    apply IH in Hrest; [|intros; eapply Hbody; [by right|done]].
    by rewrite Hrest, app_assoc.
Qed.

Lemma elem_of_range (n x : Z) : x ∈ range n ↔ 0 ≤ x < n.
Proof. unfold range. rewrite elem_of_seqZ. lia. Qed.

Lemma range_nonpos (n : Z) : n ≤ 0 → range n = [].
Proof.
  intros Hn. unfold range, seqZ.
  replace (Z.to_nat n) with 0%nat by lia. done.
Qed.

Lemma length_range (n : Z) : Z.of_nat (length (range n)) = Z.max 0 n.
Proof. unfold range. rewrite length_seqZ. lia. Qed.

Lemma NoDup_range (n : Z) : NoDup (range n).
Proof. apply NoDup_seqZ. Qed.

Lemma norm_index_in_range (i : Z) (n : nat) :
  0 ≤ i < Z.of_nat n → norm_index i n = Some (Z.to_nat i).
Proof.
  intros Hi. unfold norm_index.
  destruct (Z.leb_spec 0 i), (Z.ltb_spec i (Z.of_nat n)); simpl; done || lia.
Qed.

Lemma getitem_in_shape (m : ndarray) (rows cols : nat) (i j : Z) :
  has_shape m rows cols →
  0 ≤ i < Z.of_nat rows → 0 ≤ j < Z.of_nat cols →
  getitem m i j = Ok (cell m i j).
Proof.
  intros [Hrows Hcols] Hi Hj. unfold getitem, cell.
  rewrite norm_index_in_range by lia. simpl.
  destruct (lookup_lt_is_Some_2 m (Z.to_nat i)) as [row Hrow]; [lia|].
  rewrite Hrow. simpl.
  assert (length row = cols) as Hlen
    by (eapply (proj1 (Forall_lookup _ _) Hcols); done).
  rewrite norm_index_in_range by lia. simpl.
  destruct (lookup_lt_is_Some_2 row (Z.to_nat j)) as [v Hv]; [lia|].
  by rewrite Hv.
Qed.

(** ** Dates of the library *)

Ltac calendar :=
  unfold valid_date, anchor_in_calendar, in_calendar,
    MINORDINAL, MAXORDINAL, MAXDELTA in *;
  simpl in *; lia.

Lemma timedelta_ok (weeks days : Z) :
  - MAXDELTA ≤ 7 * weeks + days ≤ MAXDELTA →
  timedelta weeks days = Ok (7 * weeks + days).
Proof.
  intros H. unfold timedelta.
  destruct (Z.leb_spec (- MAXDELTA) (7 * weeks + days)),
    (Z.leb_spec (7 * weeks + days) MAXDELTA); simpl; done || lia.
Qed.

Lemma timedelta_Ok_inv (weeks days d : Z) :
  timedelta weeks days = Ok d →
  d = 7 * weeks + days ∧ - MAXDELTA ≤ d ≤ MAXDELTA.
Proof.
  unfold timedelta.
  destruct (Z.leb_spec (- MAXDELTA) (7 * weeks + days)),
    (Z.leb_spec (7 * weeks + days) MAXDELTA); simpl; intros [= <-]; lia.
Qed.

Lemma dt_add_ok (t : datetime) (delta : Z) :
  MINORDINAL ≤ ordinal t + delta ≤ MAXORDINAL →
  dt_add t delta = Ok (shift t delta).
Proof.
  intros H. unfold dt_add.
  destruct (Z.leb_spec MINORDINAL (ordinal t + delta)),
    (Z.leb_spec (ordinal t + delta) MAXORDINAL); simpl; done || lia.
Qed.

Lemma dt_add_Ok_inv (t t' : datetime) (delta : Z) :
  dt_add t delta = Ok t' →
  t' = shift t delta ∧ MINORDINAL ≤ ordinal t + delta ≤ MAXORDINAL.
Proof.
  unfold dt_add.
  destruct (Z.leb_spec MINORDINAL (ordinal t + delta)),
    (Z.leb_spec (ordinal t + delta) MAXORDINAL); simpl;
    intros [= <-]; split; done || lia.
Qed.

Lemma dt_add_overflow (t : datetime) (delta : Z) :
  ¬ (MINORDINAL ≤ ordinal t + delta ≤ MAXORDINAL) →
  dt_add t delta = Raise OverflowError.
Proof.
  intros H. unfold dt_add.
  destruct (Z.leb_spec MINORDINAL (ordinal t + delta)),
    (Z.leb_spec (ordinal t + delta) MAXORDINAL); simpl; done || lia.
Qed.

Lemma shift_ext (t : datetime) (a b : Z) : a = b → shift t a = shift t b.
Proof. by intros ->. Qed.

Lemma shift_0 (t : datetime) : shift t 0 = t.
Proof. destruct t. unfold shift. simpl. f_equal. lia. Qed.

Lemma weekday_range (t : datetime) : 0 ≤ weekday t < 7.
Proof. unfold weekday. apply Z.mod_pos_bound. lia. Qed.

(** ** The epoch anchor *)

(** Within the calendar the first statements of the scheduler return:
    the offset date is [today] moved back by 52 + [weeks_ago] weeks, and
    the anchor is the offset date moved back by the days since Sunday. *)
Lemma start_date_ok (today : datetime) (weeks_ago : Z) :
  valid_date today → anchor_in_calendar today weeks_ago →
  ∃ offset_date anchor,
    offset_date = shift today (- (7 * (52 + weeks_ago))) ∧
    anchor = shift offset_date (- ((weekday offset_date + 1) mod 7)) ∧
    (delta ← timedelta (52 + weeks_ago) 0; dt_sub today delta)
    = Ok offset_date ∧
    start_date today weeks_ago = Ok anchor.
Proof.
  intros Hvalid Hcal. eexists _, _.
  split; [reflexivity|]. split; [reflexivity|].
  assert (timedelta (52 + weeks_ago) 0 = Ok (7 * (52 + weeks_ago))) as Htd.
  { rewrite timedelta_ok by calendar. f_equal. lia. }
  assert (dt_sub today (7 * (52 + weeks_ago))
          = Ok (shift today (- (7 * (52 + weeks_ago))))) as Hsub.
  { unfold dt_sub. apply dt_add_ok. calendar. }
  assert (ordinal (shift today (- (7 * (52 + weeks_ago))))
          = ordinal today - 7 * (52 + weeks_ago)) as Hord by (simpl; lia).
  revert Hsub Hord. generalize (shift today (- (7 * (52 + weeks_ago)))).
  intros offset_date Hsub Hord.
  split.
  - rewrite Htd. cbn. exact Hsub.
  - unfold start_date. rewrite Htd. cbn. rewrite Hsub. cbn.
    pose proof (weekday_range offset_date) as Hwd.
    destruct (Z.eqb_spec (weekday offset_date + 1) 7) as [Heq|Hne].
    + rewrite timedelta_ok by calendar. cbn.
      unfold dt_sub. rewrite dt_add_ok by calendar.
      f_equal. apply shift_ext. rewrite Heq, Z.mod_same; lia.
    + rewrite timedelta_ok by calendar. cbn.
      unfold dt_sub. rewrite dt_add_ok by calendar.
      f_equal. apply shift_ext. rewrite Z.mod_small; lia.
Qed.

(** The window condition of [in_calendar] is exact: it holds just when
    the last day of the graph, 363 days after the anchor, is a date of
    the library (whose last Sunday-to-Saturday week ends on 25 December
    9999). *)
Lemma in_calendar_window (today : datetime) (weeks_ago : Z) :
  valid_date today → anchor_in_calendar today weeks_ago →
  ∃ anchor,
    start_date today weeks_ago = Ok anchor ∧
    (in_calendar today weeks_ago ↔ ordinal anchor + 363 ≤ MAXORDINAL).
Proof.
  intros Hvalid Hcal.
  destruct (start_date_ok today weeks_ago Hvalid Hcal)
    as (offset_date & anchor & Ho & Ha & _ & Hstart).
  exists anchor. split; [done|].
  assert (ordinal anchor
          = ordinal today - 7 * (52 + weeks_ago)
            - (ordinal today - 7 * (52 + weeks_ago) + 6 + 1) mod 7) as Hord.
  { rewrite Ha, Ho. unfold weekday, shift. simpl.
    generalize (ordinal today). intros t. Z.div_mod_to_equations. lia. }
  revert Hord. generalize (ordinal anchor). intros a Hord.
  unfold in_calendar, anchor_in_calendar, MINORDINAL, MAXORDINAL in *.
  revert Hcal Hord. generalize (ordinal today - 7 * (52 + weeks_ago)).
  intros o Hcal Hord. Z.div_mod_to_equations. lia.
Qed.

(** Outside the calendar they raise: at the span, at the offset date, or
    at the Sunday before one of the first six days of year 1. *)
Lemma start_date_overflow (today : datetime) (weeks_ago : Z) :
  valid_date today → ¬ anchor_in_calendar today weeks_ago →
  start_date today weeks_ago = Raise OverflowError.
Proof.
  intros Hvalid Hcal. unfold start_date.
  destruct (timedelta (52 + weeks_ago) 0) as [delta|e] eqn:Htd; cbn.
  - apply timedelta_Ok_inv in Htd as [-> _].
    unfold dt_sub.
    destruct (dt_add today (- (7 * (52 + weeks_ago) + 0)))
      as [offset_date|e] eqn:Hsub; cbn.
    + apply dt_add_Ok_inv in Hsub as [-> Hrange].
      assert (ordinal (shift today (- (7 * (52 + weeks_ago) + 0)))
              = ordinal today - 7 * (52 + weeks_ago)) as Hord by (simpl; lia).
      revert Hord. generalize (shift today (- (7 * (52 + weeks_ago) + 0))).
      intros offset_date Hord.
      assert (1 ≤ ordinal offset_date ≤ 6) as Hfirst by calendar.
      assert (weekday offset_date + 1 = ordinal offset_date) as Hwd.
      { (* ordinals 1..6 are Monday..Saturday *)
        unfold weekday. clear Hord. revert Hfirst. generalize (ordinal offset_date). intros o Ho.
        assert (o = 1 ∨ o = 2 ∨ o = 3 ∨ o = 4 ∨ o = 5 ∨ o = 6) as Hcases by lia.
        destruct Hcases as [->|[->|[->|[->|[->| ->]]]]]; reflexivity. }
      rewrite Hwd.
      destruct (Z.eqb_spec (ordinal offset_date) 7); [lia|].
      rewrite timedelta_ok by calendar. cbn.
      apply dt_add_overflow. calendar.
    + unfold dt_add in Hsub.
      destruct (_ && _) in Hsub; [done|]. by injection Hsub as <-.
  - unfold timedelta in Htd.
    destruct (_ && _) in Htd; [done|]. by injection Htd as <-.
Qed.

(** ** The scheduler as a comprehension *)

Lemma replace_commit_time (commit_date : datetime) (k : Z) :
  replace commit_date (9 + (k * 3) mod 14) ((k * 17) mod 60)
  = Ok (commit_time commit_date k).
Proof.
  unfold replace, commit_time.
  pose proof (Z.mod_pos_bound (k * 3) 14 ltac:(lia)).
  pose proof (Z.mod_pos_bound (k * 17) 60 ltac:(lia)).
  destruct (Z.leb_spec 0 (9 + (k * 3) mod 14)); [|lia].
  destruct (Z.ltb_spec (9 + (k * 3) mod 14) 24); [|lia].
  destruct (Z.leb_spec 0 ((k * 17) mod 60)); [|lia].
  destruct (Z.ltb_spec ((k * 17) mod 60) 60); [|lia].
  done.
Qed.

Lemma bind_singleton_fmap {A B : Type} (f : A → B) (xs : list A) :
  xs ≫= (λ x, [f x]) = f <$> xs.
Proof. induction xs as [|x xs IH]; [done|]. rewrite bind_cons, IH. done. Qed.

(** The commits of one cell, as the innermost loop appends them. *)
Lemma repetitions_commit_time (commit_date : datetime) (intensity : Z)
    (commits : list datetime) :
  for_each (range intensity) (λ commit_num commits,
    let hour := 9 + (commit_num * 3) mod 14 in
    let minute := (commit_num * 17) mod 60 in
    commit_time ← replace commit_date hour minute;
    Ok (commits ++ [commit_time])) commits
  = Ok (commits ++ (commit_time commit_date <$> range intensity)).
Proof.
  rewrite (for_each_app_ok (λ k, [commit_time commit_date k])).
  - by rewrite bind_singleton_fmap.
  - intros k acc _. cbv zeta. by rewrite replace_commit_time.
Qed.

(** The loops over a grid of at least 7 rows and 52 columns, from an
    anchor whose 52 weeks are dates of the library. *)
Lemma schedule_loops_ok (anchor : datetime) (m : ndarray) (r c : nat) :
  has_shape m r c → (7 ≤ r)%nat → (52 ≤ c)%nat →
  MINORDINAL ≤ ordinal anchor → ordinal anchor + 363 ≤ MAXORDINAL →
  for_each (range GITHUB_WEEKS) (λ week commits,
    for_each (range GITHUB_DAYS) (λ day commits,
      intensity ← getitem m day week;
      if 0 <? intensity then
        delta ← timedelta week day;
        commit_date ← dt_add anchor delta;
        for_each (range intensity) (λ commit_num commits,
          let hour := 9 + (commit_num * 3) mod 14 in
          let minute := (commit_num * 17) mod 60 in
          commit_time ← replace commit_date hour minute;
          Ok (commits ++ [commit_time])) commits
      else Ok commits) commits) []
  = Ok (grid_commits anchor m).
Proof.
  intros Hshape Hr Hc Hlo Hhi. unfold grid_commits.
  rewrite (for_each_app_ok (week_commits anchor m)); [done|].
  intros week acc Hweek. apply elem_of_range in Hweek.
  unfold week_commits.
  rewrite (for_each_app_ok (cell_commits anchor m week)); [done|].
  clear acc. intros day acc Hday. apply elem_of_range in Hday.
  unfold GITHUB_WEEKS, GITHUB_DAYS in *.
  rewrite (getitem_in_shape m r c) by (done || lia). cbn.
  unfold cell_commits.
  destruct (Z.ltb_spec 0 (cell m day week)) as [Hpos|Hzero].
  - rewrite timedelta_ok by calendar. cbn.
    rewrite dt_add_ok by calendar. cbn.
    apply repetitions_commit_time.
  - rewrite range_nonpos by done. by rewrite app_nil_r.
Qed.

(** Whatever the loops return is the comprehension: a date that is
    computed and returned is the anchor shifted. *)
Lemma schedule_loops_Ok_inv (anchor : datetime) (m : ndarray) (r c : nat)
    (commits : list datetime) :
  has_shape m r c → (7 ≤ r)%nat → (52 ≤ c)%nat →
  for_each (range GITHUB_WEEKS) (λ week commits,
    for_each (range GITHUB_DAYS) (λ day commits,
      intensity ← getitem m day week;
      if 0 <? intensity then
        delta ← timedelta week day;
        commit_date ← dt_add anchor delta;
        for_each (range intensity) (λ commit_num commits,
          let hour := 9 + (commit_num * 3) mod 14 in
          let minute := (commit_num * 17) mod 60 in
          commit_time ← replace commit_date hour minute;
          Ok (commits ++ [commit_time])) commits
      else Ok commits) commits) []
  = Ok commits →
  commits = grid_commits anchor m.
Proof.
  intros Hshape Hr Hc Hloops. unfold grid_commits.
  apply (for_each_Ok_app (week_commits anchor m)) in Hloops; [done|].
  intros week acc acc' Hweek Hdays. apply elem_of_range in Hweek.
  unfold week_commits.
  apply (for_each_Ok_app (cell_commits anchor m week)) in Hdays; [done|].
  intros day acc1 acc1' Hday Hcell.
  apply elem_of_range in Hday.
  unfold GITHUB_WEEKS, GITHUB_DAYS in *.
  rewrite (getitem_in_shape m r c) in Hcell by (done || lia). cbn in Hcell.
  unfold cell_commits.
  destruct (Z.ltb_spec 0 (cell m day week)) as [Hpos|Hzero].
  - destruct (timedelta week day) as [delta|e] eqn:Htd; cbn in Hcell; [|done].
    apply timedelta_Ok_inv in Htd as [-> _].
    destruct (dt_add anchor (7 * week + day)) as [commit_date|e] eqn:Hadd;
      cbn in Hcell; [|done].
    apply dt_add_Ok_inv in Hadd as [-> _].
    rewrite repetitions_commit_time in Hcell. by injection Hcell as <-.
  - injection Hcell as <-. rewrite range_nonpos by done. by rewrite app_nil_r.
Qed.

Lemma start_date_Ok_inv (today anchor : datetime) (weeks_ago : Z) :
  start_date today weeks_ago = Ok anchor → valid_date anchor.
Proof.
  unfold start_date. intros Hstart.
  destruct (timedelta (52 + weeks_ago) 0); cbn in Hstart; [|done].
  destruct (dt_sub today _) as [offset_date|]; cbn in Hstart; [|done].
  destruct (timedelta 0 _); cbn in Hstart; [|done].
  apply dt_add_Ok_inv in Hstart as [-> Hrange]. exact Hrange.
Qed.

(** Whatever anchor is returned lies at most 6 days before the offset
    date. *)
Lemma start_date_Ok_ordinal (today anchor : datetime) (weeks_ago : Z) :
  start_date today weeks_ago = Ok anchor →
  ordinal today - 7 * (52 + weeks_ago) - 6 ≤ ordinal anchor
    ≤ ordinal today - 7 * (52 + weeks_ago).
Proof.
  unfold start_date. intros Hstart.
  destruct (timedelta (52 + weeks_ago) 0) as [delta|] eqn:Htd;
    cbn in Hstart; [|done].
  apply timedelta_Ok_inv in Htd as [-> _].
  destruct (dt_sub today _) as [offset_date|] eqn:Hsub; cbn in Hstart; [|done].
  apply dt_add_Ok_inv in Hsub as [-> _].
  destruct (timedelta 0 _) as [delta|] eqn:Htd; cbn in Hstart; [|done].
  apply timedelta_Ok_inv in Htd as [-> _].
  apply dt_add_Ok_inv in Hstart as [-> _].
  pose proof (weekday_range (shift today (- (7 * (52 + weeks_ago) + 0))))
    as Hwd.
  revert Hwd. generalize (weekday (shift today (- (7 * (52 + weeks_ago) + 0)))).
  intros wd Hwd.
  destruct (Z.eqb_spec (wd + 1) 7); simpl; lia.
Qed.

Lemma start_date_Ok_time (today anchor : datetime) (weeks_ago : Z) :
  start_date today weeks_ago = Ok anchor →
  (hour anchor, minute anchor, second anchor, microsecond anchor)
  = (hour today, minute today, second today, microsecond today).
Proof.
  unfold start_date. intros Hstart.
  destruct (timedelta (52 + weeks_ago) 0); cbn in Hstart; [|done].
  destruct (dt_sub today _) as [offset_date|] eqn:Hsub; cbn in Hstart; [|done].
  destruct (timedelta 0 _); cbn in Hstart; [|done].
  apply dt_add_Ok_inv in Hstart as [-> _].
  apply dt_add_Ok_inv in Hsub as [-> _]. reflexivity.
Qed.


(** Within the calendar, on a grid of at least 7 rows and 52 columns,
    the scheduler returns the comprehension from the anchor. *)
Lemma generate_commit_dates_unfold_ge (today : datetime) (m : ndarray)
    (r c : nat) (weeks_ago : Z) :
  has_shape m r c → (7 ≤ r)%nat → (52 ≤ c)%nat →
  valid_date today → in_calendar today weeks_ago →
  ∃ anchor,
    start_date today weeks_ago = Ok anchor ∧
    generate_commit_dates today m weeks_ago = Ok (grid_commits anchor m).
Proof.
  intros Hshape Hr Hc Hvalid Hcal.
  destruct (start_date_ok today weeks_ago) as (o & anchor & _ & _ & _ & Hstart);
    [done|calendar|].
  exists anchor. split; [done|].
  unfold generate_commit_dates. rewrite Hstart. cbn.
  pose proof (start_date_Ok_inv _ _ _ Hstart) as Hlo.
  pose proof (start_date_Ok_ordinal _ _ _ Hstart) as Hord.
  apply (schedule_loops_ok anchor m r c); try done; calendar.
Qed.

Lemma generate_commit_dates_unfold (today : datetime) (m : ndarray)
    (weeks_ago : Z) :
  has_shape m 7 52 →
  valid_date today → in_calendar today weeks_ago →
  ∃ anchor,
    start_date today weeks_ago = Ok anchor ∧
    generate_commit_dates today m weeks_ago = Ok (grid_commits anchor m).
Proof. intros Hshape. by apply (generate_commit_dates_unfold_ge _ _ 7 52). Qed.

(** Whatever the scheduler returns, for any moment and any offset, is
    the comprehension from the anchor it computed. *)
Lemma generate_commit_dates_Ok_inv (today : datetime) (m : ndarray)
    (r c : nat) (weeks_ago : Z) (commits : list datetime) :
  has_shape m r c → (7 ≤ r)%nat → (52 ≤ c)%nat →
  generate_commit_dates today m weeks_ago = Ok commits →
  ∃ anchor,
    start_date today weeks_ago = Ok anchor ∧
    commits = grid_commits anchor m.
Proof.
  intros Hshape Hr Hc. unfold generate_commit_dates.
  destruct (start_date today weeks_ago) as [anchor|e]; cbn; [|done].
  intros Hloops. exists anchor. split; [done|].
  by apply (schedule_loops_Ok_inv anchor m r c).
Qed.

(** When no anchor can be computed the scheduler raises before it reads
    the grid. *)
Lemma generate_commit_dates_overflow (today : datetime) (m : ndarray)
    (weeks_ago : Z) :
  valid_date today → ¬ anchor_in_calendar today weeks_ago →
  generate_commit_dates today m weeks_ago = Raise OverflowError.
Proof.
  intros Hvalid Hcal. unfold generate_commit_dates.
  by rewrite start_date_overflow.
Qed.

(** C3 (amended): for every current moment, and every integer week
    offset whose offset date (now minus 52 + offset weeks) is a date of
    the calendar from its first Sunday on (7 January of year 1 to
    31 December 9999), the anchor the scheduler computes is the offset
    date walked backward to the most recent Sunday (weekday 6 of the
    calendar, row 0 of the grid): it is a Sunday, at most 6 days before
    the offset date, the offset date itself when that is a Sunday, no
    Sunday lies between the two, and the time of day is that of now.
    For every other offset no anchor is computed: the date arithmetic
    raises OverflowError. *)
Theorem start_date_most_recent_sunday (today : datetime) (weeks_ago : Z) :
  valid_date today →
  (anchor_in_calendar today weeks_ago →
   ∃ offset_date anchor,
     (delta ← timedelta (52 + weeks_ago) 0; dt_sub today delta)
     = Ok offset_date ∧
     start_date today weeks_ago = Ok anchor ∧
     ordinal offset_date = ordinal today - 7 * (52 + weeks_ago) ∧
     weekday anchor = 6 ∧
     0 ≤ ordinal offset_date - ordinal anchor ≤ 6 ∧
     (weekday offset_date = 6 → anchor = offset_date) ∧
     (∀ t, weekday t = 6 → ordinal t ≤ ordinal offset_date →
           ordinal t ≤ ordinal anchor) ∧
     (hour anchor, minute anchor, second anchor, microsecond anchor)
     = (hour today, minute today, second today, microsecond today)) ∧
  (¬ anchor_in_calendar today weeks_ago →
   start_date today weeks_ago = Raise OverflowError).
Proof.
  intros Hvalid. split; [|by apply start_date_overflow].
  intros Hcal.
  destruct (start_date_ok today weeks_ago Hvalid Hcal)
    as (offset_date & anchor & Ho & Ha & Hoff & Hstart).
  exists offset_date, anchor.
  pose proof (weekday_range offset_date) as Hwd.
  assert (ordinal offset_date = ordinal today - 7 * (52 + weeks_ago)) as Hoff'
    by (rewrite Ho; simpl; lia).
  assert (ordinal anchor
          = ordinal offset_date - (weekday offset_date + 1) mod 7) as Hord
    by (rewrite Ha; simpl; lia).
  assert (weekday anchor = 6) as Hsun.
  { unfold weekday in *. rewrite Hord.
    revert Hwd. generalize (ordinal offset_date). intros o Hwd.
    Z.div_mod_to_equations. lia. }
  assert (0 ≤ ordinal offset_date - ordinal anchor ≤ 6) as Hgap.
  { rewrite Hord.
    pose proof (Z.mod_pos_bound (weekday offset_date + 1) 7 ltac:(lia)). lia. }
  split_and!; try done; try lia.
  - intros Hsunday. rewrite Ha, Hsunday. apply shift_0.
  - intros t Ht Hle. unfold weekday in *.
    revert Hsun Ht Hle Hgap.
    generalize (ordinal anchor) (ordinal offset_date) (ordinal t).
    intros a o u. Z.div_mod_to_equations. lia.
  - rewrite Ha, Ho. reflexivity.
Qed.

(** C3 as stated, for every integer week offset, fails: on Tuesday
    2027-01-19 at 13:45:07 (ordinal 740000) the offset 105700 asks for a
    day before year 1, and the offset 105662 for Tuesday 2 January of
    year 1, whose Sunday is before year 1.  No anchor is computed: both
    raise OverflowError. *)
Lemma start_date_most_recent_sunday_counterexample :
  valid_date (mk_datetime 740000 13 45 7 123) ∧
  start_date (mk_datetime 740000 13 45 7 123) 105700 = Raise OverflowError ∧
  (delta ← timedelta (52 + 105662) 0;
   dt_sub (mk_datetime 740000 13 45 7 123) delta)
  = Ok (mk_datetime 2 13 45 7 123) ∧
  start_date (mk_datetime 740000 13 45 7 123) 105662 = Raise OverflowError ∧
  ¬ (∀ weeks_ago, ∃ anchor,
       start_date (mk_datetime 740000 13 45 7 123) weeks_ago = Ok anchor ∧
       weekday anchor = 6).
Proof.
  split; [calendar|]. split_and!; try reflexivity.
  intros Hall. destruct (Hall 105700) as (anchor & Hstart & _).
  discriminate Hstart.
Qed.

(** The statement of C3 at Tuesday 2027-01-19 13:45:07 (ordinal 740000)
    with no offset: the anchor is Sunday 2026-01-18, ordinal 739634. *)
Lemma start_date_most_recent_sunday_witness :
  start_date (mk_datetime 740000 13 45 7 123) 0
  = Ok (mk_datetime 739634 13 45 7 123) ∧
  weekday (mk_datetime 739634 13 45 7 123) = 6.
Proof.
  destruct (start_date_most_recent_sunday (mk_datetime 740000 13 45 7 123) 0)
    as [Hanchor _]; [calendar|].
  destruct Hanchor as (offset_date & anchor & _ & Hstart & _ & Hsun & _);
    [calendar|].
  assert (start_date (mk_datetime 740000 13 45 7 123) 0
          = Ok (mk_datetime 739634 13 45 7 123)) as Heq by reflexivity.
  rewrite Heq in Hstart. injection Hstart as <-.
  split; [reflexivity | exact Hsun].
Defined.

(** ** Sums over a grid *)

Lemma sumZ_cons (x : Z) (l : list Z) : sumZ (x :: l) = x + sumZ l.
Proof. reflexivity. Qed.

Lemma sumZ_app (l1 l2 : list Z) : sumZ (l1 ++ l2) = sumZ l1 + sumZ l2.
Proof.
  induction l1 as [|x l1 IH]; [done|].
  rewrite <- app_comm_cons, !sumZ_cons, IH. lia.
Qed.

Lemma sumZ_concat (m : list (list Z)) : sumZ (concat m) = sumZ (sumZ <$> m).
Proof.
  induction m as [|r m IH]; [done|].
  rewrite fmap_cons, sumZ_cons, <- IH. apply sumZ_app.
Qed.

Lemma sumZ_fmap_ext {A : Type} (f g : A → Z) (xs : list A) :
  (∀ x, x ∈ xs → f x = g x) → sumZ (f <$> xs) = sumZ (g <$> xs).
Proof.
  induction xs as [|x xs IH]; intros Hfg; [done|].
  rewrite !fmap_cons, !sumZ_cons, Hfg by left.
  rewrite IH; [done|]. intros; apply Hfg; by right.
Qed.

Lemma sumZ_fmap_add {A : Type} (f g : A → Z) (xs : list A) :
  sumZ ((λ x, f x + g x) <$> xs) = sumZ (f <$> xs) + sumZ (g <$> xs).
Proof.
  induction xs as [|x xs IH]; [done|].
  rewrite !fmap_cons, !sumZ_cons, IH. lia.
Qed.

Lemma sumZ_fmap_zero {A : Type} (xs : list A) : sumZ ((λ _, 0) <$> xs) = 0.
Proof.
  induction xs as [|x xs IH]; [done|]. by rewrite fmap_cons, sumZ_cons, IH.
Qed.

Lemma sumZ_swap {A B : Type} (f : A → B → Z) (xs : list A) (ys : list B) :
  sumZ ((λ x, sumZ (f x <$> ys)) <$> xs)
  = sumZ ((λ y, sumZ ((λ x, f x y) <$> xs)) <$> ys).
Proof.
  induction xs as [|x xs IH].
  - simpl. by rewrite sumZ_fmap_zero.
  - rewrite fmap_cons, sumZ_cons, IH, <- sumZ_fmap_add. done.
Qed.

Lemma sumZ_lookup (l : list Z) :
  sumZ l
  = sumZ ((λ i, default 0 (l !! Z.to_nat i)) <$> range (Z.of_nat (length l))).
Proof.
  induction l as [|x l IH] using rev_ind; [done|].
  rewrite length_app, Nat.add_comm. simpl length. unfold range in *.
  rewrite seqZ_S, fmap_app, !sumZ_app.
  rewrite fmap_cons, !sumZ_cons, Z.add_0_l, Nat2Z.id.
  rewrite list_lookup_middle by done. simpl.
  f_equal. rewrite IH. apply sumZ_fmap_ext.
  intros i Hi%elem_of_seqZ. by rewrite lookup_app_l by lia.
Qed.

Lemma length_bind_sumZ {A B : Type} (f : A → list B) (xs : list A) :
  Z.of_nat (length (xs ≫= f)) = sumZ ((λ x, Z.of_nat (length (f x))) <$> xs).
Proof.
  induction xs as [|x xs IH]; [done|].
  rewrite bind_cons, length_app, Nat2Z.inj_add, IH. done.
Qed.

Lemma np_sum_cells (m : ndarray) (rows cols : nat) :
  has_shape m rows cols →
  np_sum m
  = sumZ ((λ week, sumZ ((λ day, cell m day week) <$> range (Z.of_nat rows)))
            <$> range (Z.of_nat cols)).
Proof.
  intros [Hrows Hcols]. unfold np_sum.
  rewrite sumZ_concat, sumZ_lookup, length_fmap, Hrows.
  rewrite <- (sumZ_swap (λ day week, cell m day week)).
  apply sumZ_fmap_ext. intros day Hday%elem_of_range.
  rewrite list_lookup_fmap.
  destruct (lookup_lt_is_Some_2 m (Z.to_nat day)) as [row Hrow]; [lia|].
  rewrite Hrow. simpl.
  assert (length row = cols) as Hlen
    by exact (Forall_lookup_1 (λ r, length r = cols) m _ row Hcols Hrow).
  rewrite sumZ_lookup, Hlen. apply sumZ_fmap_ext. intros week _.
  unfold cell. by rewrite Hrow.
Qed.

Lemma cell_values_in (lo hi : Z) (m : ndarray) (day week : Z) :
  lo ≤ 0 ≤ hi → values_in lo hi m → lo ≤ cell m day week ≤ hi.
Proof.
  intros Hzero Hm. unfold cell.
  destruct (m !! Z.to_nat day) as [row|] eqn:Hrow; simpl; [|lia].
  destruct (row !! Z.to_nat week) as [v|] eqn:Hv; simpl; [|lia].
  refine (Forall_lookup_1 (λ v, lo ≤ v ≤ hi) row _ v _ Hv).
  exact (Forall_lookup_1 (Forall (λ v, lo ≤ v ≤ hi)) m _ row Hm Hrow).
Qed.

(** ** Events of one cell *)

Lemma length_cell_commits (start : datetime) (m : ndarray) (week day : Z) :
  Z.of_nat (length (cell_commits start m week day))
  = Z.max 0 (cell m day week).
Proof. unfold cell_commits. by rewrite length_fmap, length_range. Qed.

Lemma length_grid_commits (start : datetime) (m : ndarray) :
  Z.of_nat (length (grid_commits start m))
  = sumZ ((λ week, sumZ ((λ day, Z.max 0 (cell m day week))
                           <$> range GITHUB_DAYS)) <$> range GITHUB_WEEKS).
Proof.
  unfold grid_commits. rewrite length_bind_sumZ.
  apply sumZ_fmap_ext. intros week _.
  unfold week_commits. rewrite length_bind_sumZ.
  apply sumZ_fmap_ext. intros day _. apply length_cell_commits.
Qed.

Lemma ordinal_cell_commits (start : datetime) (m : ndarray) (week day : Z)
    (e : datetime) :
  e ∈ cell_commits start m week day →
  ordinal e = ordinal start + 7 * week + day.
Proof.
  unfold cell_commits. intros (k & -> & _)%list_elem_of_fmap.
  unfold commit_time, shift. simpl. lia.
Qed.

Lemma bind_nil_all {A B : Type} (g : A → list B) (xs : list A) :
  (∀ x, x ∈ xs → g x = []) → xs ≫= g = [].
Proof.
  induction xs as [|x xs IH]; intros Hg; [done|].
  rewrite bind_cons, Hg by left. simpl. apply IH. intros; apply Hg; by right.
Qed.

Lemma bind_only {A B : Type} (g : A → list B) (xs : list A) (x0 : A) :
  NoDup xs → x0 ∈ xs → (∀ x, x ∈ xs → x ≠ x0 → g x = []) →
  xs ≫= g = g x0.
Proof.
  induction 1 as [|x xs Hnotin Hnodup IH]; intros Hin Hg.
  - by apply elem_of_nil in Hin.
  - rewrite bind_cons. apply elem_of_cons in Hin as [->|Hin].
    + rewrite bind_nil_all; [by rewrite app_nil_r|].
      intros y Hy. apply Hg; [by right|]. intros ->. done.
    + rewrite Hg; [|by left|by intros ->]. simpl.
      apply IH; [done|]. intros y Hy. apply Hg. by right.
Qed.

Lemma filter_bind {A B : Type} (P : B → Prop) `{!∀ b, Decision (P b)}
    (f : A → list B) (xs : list A) :
  filter P (xs ≫= f) = xs ≫= (λ x, filter P (f x)).
Proof.
  induction xs as [|x xs IH]; [done|].
  by rewrite !bind_cons, filter_app, IH.
Qed.

Lemma filter_all {B : Type} (P : B → Prop) `{!∀ b, Decision (P b)}
    (l : list B) :
  (∀ b, b ∈ l → P b) → filter P l = l.
Proof.
  induction l as [|b l IH]; intros HP; [done|].
  rewrite filter_cons_True by (apply HP; by left).
  rewrite IH; [done|]. intros; apply HP; by right.
Qed.

Lemma filter_none {B : Type} (P : B → Prop) `{!∀ b, Decision (P b)}
    (l : list B) :
  (∀ b, b ∈ l → ¬ P b) → filter P l = [].
Proof.
  induction l as [|b l IH]; intros HP; [done|].
  rewrite filter_cons_False by (apply HP; by left).
  apply IH. intros; apply HP; by right.
Qed.

(** The events of the schedule dated on the day of cell (day, week) are
    the events of that cell, in order. *)
Lemma filter_grid_commits (start : datetime) (m : ndarray) (week day : Z) :
  0 ≤ week < GITHUB_WEEKS → 0 ≤ day < GITHUB_DAYS →
  filter (λ e, ordinal e = ordinal start + 7 * week + day)
    (grid_commits start m)
  = cell_commits start m week day.
Proof.
  intros Hweek Hday. unfold grid_commits, GITHUB_DAYS in *.
  rewrite filter_bind.
  rewrite (bind_only _ _ week);
    [|apply NoDup_range|by apply elem_of_range|].
  - unfold week_commits. rewrite filter_bind.
    rewrite (bind_only _ _ day);
      [|apply NoDup_range|by apply elem_of_range|].
    + apply filter_all. intros e He. by eapply ordinal_cell_commits.
    + intros day' Hday'%elem_of_range Hne. apply filter_none.
      intros e He%ordinal_cell_commits. lia.
  - intros week' Hweek'%elem_of_range Hne. apply filter_none.
    unfold week_commits.
    intros e (day' & He%ordinal_cell_commits & Hday'%elem_of_range)
      %list_elem_of_bind.
    unfold GITHUB_DAYS in *. lia.
Qed.

(** ** Chronological order *)

Lemma dt_le_earlier_day (a b : datetime) : ordinal a < ordinal b → dt_le a b.
Proof.
  intros Hlt. unfold dt_le, dt_leb, dt_key. simpl.
  by destruct (Z.ltb_spec (ordinal a) (ordinal b)); [|lia].
Qed.

Lemma dt_le_same_day (a b : datetime) :
  ordinal a = ordinal b → hour a < hour b → dt_le a b.
Proof.
  intros Heq Hlt. unfold dt_le, dt_leb, dt_key. simpl.
  rewrite Heq, Z.eqb_refl. simpl.
  destruct (Z.ltb_spec (hour a) (hour b)); [|lia].
  apply orb_true_r.
Qed.

Lemma StronglySorted_seq (a n : nat) : StronglySorted lt (seq a n).
Proof.
  revert a. induction n as [|n IH]; intros a; simpl; constructor; [done|].
  apply Forall_forall. intros x Hx%elem_of_seq. lia.
Qed.

Lemma StronglySorted_range (n : Z) : StronglySorted Z.lt (range n).
Proof.
  unfold range, seqZ.
  apply (StronglySorted_fmap _ lt Z.lt); [|apply StronglySorted_seq].
  intros x y Hxy. lia.
Qed.

Lemma StronglySorted_bind {A B : Type} (RA : relation A) (R : relation B)
    (f : A → list B) (xs : list A) :
  StronglySorted RA xs →
  (∀ x, x ∈ xs → StronglySorted R (f x)) →
  (∀ x y a b, x ∈ xs → y ∈ xs → RA x y → a ∈ f x → b ∈ f y → R a b) →
  StronglySorted R (xs ≫= f).
Proof.
  induction 1 as [|x xs Hsorted IH Hall]; intros Hf Hcross; [constructor|].
  rewrite bind_cons. apply StronglySorted_app. split_and!.
  - intros a b Ha (y & Hb & Hy)%list_elem_of_bind.
    apply (Hcross x y); [by left|by right| |done|done].
    by apply (proj1 (Forall_forall _ _) Hall).
  - apply Hf. by left.
  - apply IH.
    + intros y Hy. apply Hf. by right.
    + intros y z a b Hy Hz. apply Hcross; by right.
Qed.

Lemma cell_commits_sorted (start : datetime) (m : ndarray) (week day : Z) :
  cell m day week ≤ 4 →
  StronglySorted dt_le (cell_commits start m week day).
Proof.
  intros Hmax. unfold cell_commits.
  apply (StronglySorted_fmap _ (λ j k, 0 ≤ j < k ∧ k < 4) dt_le).
  - intros j k Hjk. apply dt_le_same_day; [done|]. simpl.
    assert (j = 0 ∨ j = 1 ∨ j = 2) as Hj by lia.
    assert (k = 1 ∨ k = 2 ∨ k = 3) as Hk by lia.
    destruct Hj as [->|[->| ->]], Hk as [->|[->| ->]];
      first [lia | reflexivity].
  - pose proof (StronglySorted_range (cell m day week)) as Hsorted.
    assert (Forall (λ k, 0 ≤ k < 4) (range (cell m day week))) as Hall.
    { apply Forall_forall. intros k Hk%elem_of_range. lia. }
    induction Hsorted as [|k l Hl IH Hk]; constructor.
    + apply IH. by inversion Hall.
    + inversion Hall as [|? ? Hk4 Hl4]; subst.
      apply Forall_forall. intros j Hj.
      pose proof (proj1 (Forall_forall _ _) Hk j Hj).
      pose proof (proj1 (Forall_forall _ _) Hl4 j Hj). simpl in *. lia.
Qed.

Lemma grid_commits_sorted (start : datetime) (m : ndarray) :
  values_in 0 4 m → StronglySorted dt_le (grid_commits start m).
Proof.
  intros Hvalues. unfold grid_commits.
  apply (StronglySorted_bind Z.lt); [apply StronglySorted_range| |].
  - intros week _. unfold week_commits.
    apply (StronglySorted_bind Z.lt); [apply StronglySorted_range| |].
    + intros day _. apply cell_commits_sorted.
      apply (cell_values_in 0 4); [lia|done].
    + intros d d' a b _ _ Hlt Ha%ordinal_cell_commits Hb%ordinal_cell_commits.
      apply dt_le_earlier_day. lia.
  - intros w w' a b _ _ Hlt.
    unfold week_commits.
    intros (d & Ha%ordinal_cell_commits & Hd%elem_of_range)%list_elem_of_bind.
    intros (d' & Hb%ordinal_cell_commits & Hd'%elem_of_range)
      %list_elem_of_bind.
    apply dt_le_earlier_day. unfold GITHUB_DAYS in *. lia.
Qed.

(** ** The claims about the scheduler *)

Lemma elem_of_grid_commits (start : datetime) (m : ndarray) (e : datetime) :
  e ∈ grid_commits start m →
  ∃ day week, 0 ≤ day < 7 ∧ 0 ≤ week < 52 ∧ 0 < cell m day week ∧
    ordinal e = ordinal start + 7 * week + day.
Proof.
  unfold grid_commits, week_commits.
  intros (week & (day & He & Hday%elem_of_range)%list_elem_of_bind
          & Hweek%elem_of_range)%list_elem_of_bind.
  unfold GITHUB_DAYS, GITHUB_WEEKS in *.
  exists day, week. split_and!; try lia.
  - unfold cell_commits in He.
    apply list_elem_of_fmap in He as (k & _ & Hk%elem_of_range). lia.
  - by eapply ordinal_cell_commits.
Qed.

Lemma lookup_default_zero (l : list Z) (i : nat) :
  Forall (λ v, v = 0) l → default 0 (l !! i) = 0.
Proof.
  intros Hl. destruct (l !! i) as [v|] eqn:Hv; [|done].
  exact (Forall_lookup_1 (λ v, v = 0) l i v Hl Hv).
Qed.

Lemma has_shape_single_cell_grid : has_shape single_cell_grid 7 52.
Proof. split; [reflexivity|]. by repeat constructor. Qed.

Lemma values_in_single_cell_grid : values_in 0 4 single_cell_grid.
Proof. unfold values_in. compute_done. Qed.

(** C1 (amended): for every 7 x 52 grid with cells in [0,4], every
    current moment and every week offset at which the graph lies within
    the calendar (the offset date, now minus 52 + offset weeks, is no
    earlier than 7 January of year 1, and the 363 days after it end by
    31 December 9999), the schedule is produced, its length is the sum of
    all cells, the events dated Anchor + w weeks + d days are exactly as
    many as cell (d, w) holds (none for a cell that is 0), and every event
    is dated on the day of a non-zero cell. *)
Theorem generate_commit_dates_count (today : datetime) (m : ndarray)
    (weeks_ago : Z) :
  has_shape m 7 52 → values_in 0 4 m →
  valid_date today → in_calendar today weeks_ago →
  ∃ anchor commits,
    start_date today weeks_ago = Ok anchor ∧
    generate_commit_dates today m weeks_ago = Ok commits ∧
    Z.of_nat (length commits) = np_sum m ∧
    (∀ day week, 0 ≤ day < 7 → 0 ≤ week < 52 →
       Z.of_nat (length (filter
         (λ e, ordinal e = ordinal anchor + 7 * week + day)
         commits)) = cell m day week) ∧
    (∀ e, e ∈ commits →
       ∃ day week, 0 ≤ day < 7 ∧ 0 ≤ week < 52 ∧ 0 < cell m day week ∧
         ordinal e = ordinal anchor + 7 * week + day).
Proof.
  intros Hshape Hvalues Hvalid Hcal.
  destruct (generate_commit_dates_unfold today m weeks_ago)
    as (anchor & Hstart & Hrun); [done..|].
  exists anchor. eexists. split; [done|]. split; [done|].
  assert (∀ day week, Z.max 0 (cell m day week) = cell m day week) as Hmax.
  { intros day week.
    pose proof (cell_values_in 0 4 m day week ltac:(lia) Hvalues). lia. }
  split_and!.
  - rewrite length_grid_commits, (np_sum_cells m 7 52) by done.
    apply sumZ_fmap_ext. intros week _.
    apply sumZ_fmap_ext. intros day _. apply Hmax.
  - intros day week Hday Hweek.
    rewrite filter_grid_commits by done.
    by rewrite length_cell_commits.
  - apply elem_of_grid_commits.
Qed.

(** C1 as stated, for every week offset, fails: on Tuesday 2027-01-19
    the scenario grid, whose cells sum to 2, scheduled 105700 weeks back
    emits no event at all; the run ends in OverflowError. *)
Lemma generate_commit_dates_count_counterexample :
  has_shape single_cell_grid 7 52 ∧ values_in 0 4 single_cell_grid ∧
  valid_date (mk_datetime 740000 13 45 7 123) ∧
  np_sum single_cell_grid = 2 ∧
  generate_commit_dates (mk_datetime 740000 13 45 7 123) single_cell_grid
    105700
  = Raise OverflowError ∧
  ¬ (∀ weeks_ago, ∃ commits,
       generate_commit_dates (mk_datetime 740000 13 45 7 123)
         single_cell_grid weeks_ago = Ok commits ∧
       Z.of_nat (length commits) = np_sum single_cell_grid).
Proof.
  split; [apply has_shape_single_cell_grid|].
  split; [apply values_in_single_cell_grid|].
  split; [calendar|]. split_and!; try reflexivity.
  intros Hall. destruct (Hall 105700) as (commits & Hrun & _).
  discriminate Hrun.
Qed.

(** The statement of C1 on the scenario grid, scheduled three weeks
    back: two events, both on the anchor. *)
Lemma generate_commit_dates_count_witness :
  ∃ commits,
    generate_commit_dates (mk_datetime 740000 13 45 7 123) single_cell_grid 3
    = Ok commits ∧
    length commits = 2%nat ∧
    length (filter (λ e, ordinal e = 739613) commits) = 2%nat.
Proof.
  destruct (generate_commit_dates_count (mk_datetime 740000 13 45 7 123)
              single_cell_grid 3 has_shape_single_cell_grid
              values_in_single_cell_grid)
    as (anchor & commits & Hstart & Hrun & Hlen & Hcell & _);
    [calendar|calendar|].
  assert (start_date (mk_datetime 740000 13 45 7 123) 3
          = Ok (mk_datetime 739613 13 45 7 123)) as Heq by reflexivity.
  rewrite Heq in Hstart. injection Hstart as <-.
  exists commits. split; [exact Hrun|]. split.
  - apply Nat2Z.inj. rewrite Hlen. reflexivity.
  - apply Nat2Z.inj.
    exact (Hcell 0 0 ltac:(lia) ltac:(lia)).
Defined.




(** C4: on a 7 x 52 grid with cells in [0,4], whatever sequence the
    scheduler returns, for any moment and any week offset, is the events
    in traversal order, weeks ascending, days ascending within a week,
    repetitions ascending within a cell, with no sorting step, and it is
    chronologically sorted: each event is no later than every event
    after it.  A sequence is returned whenever the graph lies within the
    calendar. *)
Theorem generate_commit_dates_sorted (today : datetime) (m : ndarray)
    (weeks_ago : Z) :
  has_shape m 7 52 → values_in 0 4 m →
  (valid_date today → in_calendar today weeks_ago →
   ∃ commits, generate_commit_dates today m weeks_ago = Ok commits) ∧
  (∀ commits,
     generate_commit_dates today m weeks_ago = Ok commits →
     ∃ anchor,
       start_date today weeks_ago = Ok anchor ∧
       commits
       = (range 52 ≫= λ week, range 7 ≫= λ day,
            commit_time (shift anchor (7 * week + day))
            <$> range (cell m day week)) ∧
       StronglySorted dt_le commits).
Proof.
  intros Hshape Hvalues. split.
  - intros Hvalid Hcal.
    destruct (generate_commit_dates_unfold today m weeks_ago)
      as (anchor & _ & Hrun); [done..|]. by eexists.
  - intros commits Hrun.
    apply (generate_commit_dates_Ok_inv _ _ 7 52) in Hrun
      as (anchor & Hstart & ->); [|done|lia|lia].
    exists anchor. split_and!; [done|done|].
    by apply grid_commits_sorted.
Qed.

(** The statement of C4 on the scenario grid, on Tuesday 2027-01-19
    without offset: a sequence is returned, and it is sorted. *)
Lemma generate_commit_dates_sorted_witness :
  ∃ commits,
    generate_commit_dates (mk_datetime 740000 13 45 7 123) single_cell_grid 0
    = Ok commits ∧ StronglySorted dt_le commits.
Proof.
  destruct (generate_commit_dates_sorted (mk_datetime 740000 13 45 7 123)
              single_cell_grid 0 has_shape_single_cell_grid
              values_in_single_cell_grid) as [Hreturns Hsorted].
  destruct Hreturns as (commits & Hrun); [calendar|calendar|].
  exists commits. split; [exact Hrun|].
  destruct (Hsorted commits Hrun) as (anchor & _ & _ & Hs). exact Hs.
Defined.

(** ** The quantizer, template path *)

Lemma np_array_ok (rows : pattern) (r c : nat) :
  has_shape rows r c → (0 < r)%nat → np_array rows = Ok rows.
Proof.
  intros [Hr Hc] Hpos. destruct rows as [|row rows]; [simpl in Hr; lia|].
  unfold np_array.
  replace (forallb (λ r', Nat.eqb (length r') (length row)) rows) with true;
    [done|].
  symmetry. apply forallb_forall. intros row' Hin%list_elem_of_In.
  apply Nat.eqb_eq.
  inversion Hc as [|? ? Hrow Hrows]; subst.
  by rewrite (proj1 (Forall_forall _ _) Hrows row' Hin).
Qed.

Lemma shape1_has_shape (a : ndarray) (r c : nat) :
  has_shape a r c → (0 < r)%nat → shape1 a = Z.of_nat c.
Proof.
  intros [Hr Hc] Hpos. destruct a as [|row a]; [simpl in Hr; lia|].
  inversion Hc; subst. done.
Qed.

Lemma shape0_has_shape (a : ndarray) (r c : nat) :
  has_shape a r c → shape0 a = Z.of_nat r.
Proof. intros [Hr _]. unfold shape0. by rewrite Hr. Qed.

Lemma pad_rows_shape (a : ndarray) (r c : nat) (n : Z) :
  has_shape a r c → (0 < r)%nat →
  has_shape (pad_rows a n) (r + Z.to_nat n) c.
Proof.
  intros Ha Hpos. unfold pad_rows.
  rewrite (shape1_has_shape a r c), Nat2Z.id by done.
  destruct Ha as [Hr Hc]. split.
  - by rewrite length_app, length_replicate, Hr.
  - apply Forall_app. split; [done|].
    apply Forall_replicate, length_replicate.
Qed.

Lemma pad_cols_shape (a : ndarray) (r c : nat) (n : Z) :
  has_shape a r c → has_shape (pad_cols a n) r (c + Z.to_nat n).
Proof.
  intros [Hr Hc]. unfold pad_cols. split.
  - by rewrite length_fmap.
  - apply Forall_fmap. eapply Forall_impl; [exact Hc|].
    intros row Hrow. simpl. by rewrite length_app, length_replicate, Hrow.
Qed.

Lemma slice_cols_shape (a : ndarray) (r c : nat) (k : Z) :
  has_shape a r c → has_shape (slice_cols a k) r (Z.to_nat k `min` c).
Proof.
  intros [Hr Hc]. unfold slice_cols. split.
  - by rewrite length_fmap.
  - apply Forall_fmap. eapply Forall_impl; [exact Hc|].
    intros row Hrow. simpl. by rewrite length_take, Hrow.
Qed.

Lemma take_rows_shape (a : ndarray) (r c : nat) (k : nat) :
  has_shape a r c → has_shape (take k a) (k `min` r) c.
Proof.
  intros [Hr Hc]. split.
  - by rewrite length_take, Hr.
  - by apply Forall_take.
Qed.

Lemma cell_pad_rows (a : ndarray) (n day week : Z) :
  cell (pad_rows a n) day week = cell a day week.
Proof.
  unfold cell, pad_rows.
  destruct (decide (Z.to_nat day < length a)%nat) as [Hlt|Hge].
  - by rewrite lookup_app_l.
  - rewrite lookup_app_r by lia.
    rewrite (lookup_ge_None_2 a) by lia. simpl.
    match goal with
    | |- default 0 (?l !! ?i ≫= _) = _ =>
        destruct (l !! i) as [row|] eqn:Hrow; [|done]
    end.
    apply lookup_replicate in Hrow as [-> _]. simpl.
    apply lookup_default_zero. by apply Forall_replicate.
Qed.

Lemma cell_pad_cols (a : ndarray) (n day week : Z) :
  cell (pad_cols a n) day week = cell a day week.
Proof.
  unfold cell, pad_cols. rewrite list_lookup_fmap.
  destruct (a !! Z.to_nat day) as [row|]; [|done]. simpl.
  destruct (decide (Z.to_nat week < length row)%nat) as [Hlt|Hge].
  - by rewrite lookup_app_l.
  - rewrite lookup_app_r by lia.
    rewrite (lookup_ge_None_2 row) by lia. simpl.
    apply lookup_default_zero. by apply Forall_replicate.
Qed.

Lemma cell_slice_cols (a : ndarray) (k day week : Z) :
  0 ≤ week < k → cell (slice_cols a k) day week = cell a day week.
Proof.
  intros Hweek. unfold cell, slice_cols. rewrite list_lookup_fmap.
  destruct (a !! Z.to_nat day) as [row|]; [|done]. simpl.
  by rewrite lookup_take_lt by lia.
Qed.

Lemma cell_take_rows (a : ndarray) (k : nat) (day week : Z) :
  0 ≤ day < Z.of_nat k → cell (take k a) day week = cell a day week.
Proof.
  intros Hday. unfold cell. by rewrite lookup_take_lt by lia.
Qed.

Lemma getitem_cell (a : ndarray) (day week v : Z) :
  0 ≤ day → 0 ≤ week → getitem a day week = Ok v → cell a day week = v.
Proof.
  intros Hday Hweek. unfold getitem, cell, norm_index.
  destruct (Z.leb_spec 0 day); [|lia].
  destruct (Z.ltb_spec day (Z.of_nat (length a))); simpl.
  - destruct (a !! Z.to_nat day) as [row|]; simpl; [|done].
    destruct (Z.leb_spec 0 week); [|lia].
    destruct (Z.ltb_spec week (Z.of_nat (length row))); simpl.
    + destruct (row !! Z.to_nat week); simpl; congruence.
    + destruct (Z.leb_spec (- Z.of_nat (length row)) week),
        (Z.ltb_spec week 0); simpl; done || lia.
  - destruct (Z.leb_spec (- Z.of_nat (length a)) day), (Z.ltb_spec day 0);
      simpl; done || lia.
Qed.

Lemma cell_outside (a : ndarray) (r c : nat) (day week : Z) :
  has_shape a r c → 0 ≤ day → 0 ≤ week →
  ¬ (day < Z.of_nat r ∧ week < Z.of_nat c) → cell a day week = 0.
Proof.
  intros [Hr Hc] Hday Hweek Hout. unfold cell.
  destruct (a !! Z.to_nat day) as [row|] eqn:Hrow; [|done]. simpl.
  pose proof (lookup_lt_Some _ _ _ Hrow) as Hd.
  pose proof (Forall_lookup_1 (λ r, length r = c) a _ row Hc Hrow) as Hlen.
  simpl in Hlen. rewrite (lookup_ge_None_2 row); [done|]. lia.
Qed.

(** What [load_template] returns on a registered list of [r] > 0 rows of
    [c] cells each. *)
Lemma load_template_unfold (templates : registry) (name : string)
    (rows : pattern) (r c : nat) :
  templates !! name = Some rows → has_shape rows r c → (0 < r)%nat →
  ∃ m, load_template templates name = Ok m ∧ has_shape m 7 52 ∧
    (∀ day week, 0 ≤ day < 7 → 0 ≤ week < 52 →
       cell m day week = cell rows day week) ∧
    ((7 ≤ r)%nat → (52 < c)%nat → m = take 52 <$> take 7 rows).
Proof.
  intros Hlookup Hshape Hpos. unfold load_template. rewrite Hlookup.
  rewrite (np_array_ok rows r c) by done. cbn.
  unfold GITHUB_DAYS, GITHUB_WEEKS.
  set (p1 := if shape0 rows <? 7 then pad_rows rows (7 - shape0 rows)
             else rows).
  assert (∃ r1, has_shape p1 r1 c ∧ (7 ≤ r1)%nat ∧
                (∀ day week, cell p1 day week = cell rows day week) ∧
                ((7 ≤ r)%nat → p1 = rows)) as (r1 & Hp1 & Hr1 & Hcell1 & Hsame1).
  { subst p1. rewrite (shape0_has_shape rows r c) by done.
    destruct (Z.ltb_spec (Z.of_nat r) 7).
    - eexists. split_and!.
      + by apply pad_rows_shape.
      + lia.
      + intros. apply cell_pad_rows.
      + lia.
    - exists r. split_and!; [done|lia|done|done]. }
  set (p2 := if shape1 p1 <? 52 then pad_cols p1 (52 - shape1 p1)
             else if 52 <? shape1 p1 then slice_cols p1 52 else p1).
  assert (has_shape p2 r1 52 ∧
          (∀ day week, 0 ≤ week < 52 → cell p2 day week = cell p1 day week) ∧
          ((52 < c)%nat → p2 = take 52 <$> p1)) as (Hp2 & Hcell2 & Hsame2).
  { subst p2. rewrite (shape1_has_shape p1 r1 c) by (done || lia).
    destruct (Z.ltb_spec (Z.of_nat c) 52).
    - split_and!.
      + replace 52%nat with (c + Z.to_nat (52 - Z.of_nat c))%nat by lia.
        by apply pad_cols_shape.
      + intros. apply cell_pad_cols.
      + lia.
    - destruct (Z.ltb_spec 52 (Z.of_nat c)).
      + split_and!.
        * replace 52%nat with (Z.to_nat 52 `min` c)%nat by lia.
          by apply slice_cols_shape.
        * intros. by apply cell_slice_cols.
        * done.
      + replace c with 52%nat in * by lia. split_and!; [done|done|lia]. }
  eexists. split; [reflexivity|]. unfold slice. split_and!.
  - pose proof (slice_cols_shape _ _ _ 52
                  (take_rows_shape p2 r1 52 (Z.to_nat 7) Hp2)) as Hs.
    replace (Z.to_nat 7 `min` r1)%nat with 7%nat in Hs by lia.
    replace (Z.to_nat 52 `min` 52)%nat with 52%nat in Hs by lia.
    exact Hs.
  - intros day week Hday Hweek.
    rewrite cell_slice_cols, cell_take_rows by lia.
    by rewrite Hcell2, Hcell1.
  - intros Hr Hc. rewrite Hsame2, Hsame1 by done.
    unfold slice_cols. change (Z.to_nat 52) with 52%nat.
    change (Z.to_nat 7) with 7%nat.
    rewrite <- fmap_take, <- list_fmap_compose.
    apply list_fmap_ext. intros _ row _. simpl.
    by rewrite take_take, Nat.min_id.
Qed.

(** C7: on the template path the values are those of the template, never
    rescaled: inside the 7 x 52 window a cell within the template's bounds
    is the template's cell, a cell outside them (the padding) is 0; a
    template of 9 rows of 60 cells gives 7 x 52, its rows 7-8 and its
    columns 52-59 dropped. *)
Theorem load_template_preserves_values (templates : registry)
    (template_name : string) (rows : pattern) (r c : nat) :
  templates !! template_name = Some rows →
  has_shape rows r c → (0 < r)%nat →
  ∃ m,
    load_template templates template_name = Ok m ∧
    has_shape m 7 52 ∧
    (∀ day week v, 0 ≤ day < 7 → 0 ≤ week < 52 →
       getitem rows day week = Ok v → getitem m day week = Ok v) ∧
    (∀ day week, 0 ≤ day < 7 → 0 ≤ week < 52 →
       ¬ (day < Z.of_nat r ∧ week < Z.of_nat c) →
       getitem m day week = Ok 0) ∧
    (r = 9%nat → c = 60%nat → m = take 52 <$> take 7 rows).
Proof.
  intros Hlookup Hshape Hpos.
  destruct (load_template_unfold templates template_name rows r c)
    as (m & Hrun & Hm & Hcell & Hbig); [done..|].
  exists m. split_and!; [done|done| | |].
  - intros day week v Hday Hweek Hv.
    rewrite (getitem_in_shape m 7 52) by (done || lia).
    rewrite Hcell by done. f_equal. apply getitem_cell; [lia|lia|done].
  - intros day week Hday Hweek Hout.
    rewrite (getitem_in_shape m 7 52) by (done || lia).
    rewrite Hcell by done. f_equal.
    apply (cell_outside rows r c); [done|lia|lia|done].
  - intros -> ->. apply Hbig; lia.
Qed.

Lemma ndarray_ext (a b : ndarray) (r c : nat) :
  has_shape a r c → has_shape b r c →
  (∀ day week, 0 ≤ day < Z.of_nat r → 0 ≤ week < Z.of_nat c →
     cell a day week = cell b day week) →
  a = b.
Proof.
  intros [Har Hac] [Hbr Hbc] Hcell. apply list_eq_same_length with r;
    [done..|].
  intros i rowa rowb Hi Ha Hb.
  pose proof (Forall_lookup_1 (λ r, length r = c) a i rowa Hac Ha) as Hla.
  pose proof (Forall_lookup_1 (λ r, length r = c) b i rowb Hbc Hb) as Hlb.
  apply list_eq_same_length with c; [done..|].
  intros j x y Hj Hx Hy.
  specialize (Hcell (Z.of_nat i) (Z.of_nat j) ltac:(lia) ltac:(lia)).
  unfold cell in Hcell. rewrite !Nat2Z.id, Ha, Hb in Hcell. simpl in Hcell.
  by rewrite Hx, Hy in Hcell.
Qed.

Lemma zero_pad_truncate_spec (rows : pattern) (r c : nat) :
  has_shape rows r c → (0 < r)%nat →
  has_shape (zero_pad_truncate rows) 7 52 ∧
  ∀ day week, 0 ≤ day < 7 → 0 ≤ week < 52 →
    cell (zero_pad_truncate rows) day week = cell rows day week.
Proof.
  intros Hshape Hpos. unfold zero_pad_truncate, slice.
  unfold GITHUB_DAYS, GITHUB_WEEKS.
  pose proof (pad_rows_shape rows r c (7 - shape0 rows) Hshape Hpos) as H1.
  pose proof (pad_cols_shape _ _ _ (52 - shape1 rows) H1) as H2.
  pose proof (slice_cols_shape _ _ _ 52
                (take_rows_shape _ _ _ (Z.to_nat 7) H2)) as H3.
  rewrite (shape0_has_shape rows r c), (shape1_has_shape rows r c) in * by done.
  split.
  - replace 7%nat
      with (Z.to_nat 7 `min` (r + Z.to_nat (7 - Z.of_nat r)))%nat at 1 by lia.
    replace 52%nat
      with (Z.to_nat 52 `min` (c + Z.to_nat (52 - Z.of_nat c)))%nat by lia.
    exact H3.
  - intros day week Hday Hweek.
    rewrite cell_slice_cols, cell_take_rows by lia.
    by rewrite cell_pad_cols, cell_pad_rows.
Qed.

Lemma load_template_zero_pad_truncate (templates : registry) (name : string)
    (rows : pattern) (r c : nat) :
  templates !! name = Some rows → has_shape rows r c → (0 < r)%nat →
  load_template templates name = Ok (zero_pad_truncate rows).
Proof.
  intros Hlookup Hshape Hpos.
  destruct (load_template_unfold templates name rows r c)
    as (m & -> & Hm & Hcell & _); [done..|].
  destruct (zero_pad_truncate_spec rows r c) as [Hz Hzcell]; [done..|].
  f_equal. apply (ndarray_ext _ _ 7 52); [done..|].
  intros day week Hday Hweek. by rewrite Hcell, Hzcell.
Qed.

(** ** The quantizer, image path *)

Lemma quantize_pixel_table :
  Forall (λ v, quantize_pixel v = 4 * (255 - v) / 255) (range 256).
Proof. compute_done. Qed.

Lemma quantize_pixel_floor (v : Z) :
  0 ≤ v ≤ 255 → quantize_pixel v = 4 * (255 - v) / 255.
Proof.
  intros Hv.
  apply (proj1 (Forall_forall _ _) quantize_pixel_table).
  apply elem_of_range. lia.
Qed.

Lemma quantize_pixel_range (v : Z) :
  0 ≤ v ≤ 255 → 0 ≤ quantize_pixel v ≤ 4.
Proof.
  intros Hv. rewrite quantize_pixel_floor by done.
  split; [apply Z.div_pos; lia|].
  apply Z.div_le_upper_bound; lia.
Qed.

Lemma constant_grid (m : ndarray) (r c : nat) (v : Z) :
  has_shape m r c → values_in v v m → m = replicate r (replicate c v).
Proof.
  intros [Hr Hc] Hv. apply list_eq_same_length with r;
    [by rewrite length_replicate|done|].
  intros i row row' Hi Hrow [-> _]%lookup_replicate.
  pose proof (Forall_lookup_1 (λ r, length r = c) m i row Hc Hrow) as Hlen.
  pose proof (Forall_lookup_1 _ m i row Hv Hrow) as Hvals.
  simpl in Hlen, Hvals.
  apply list_eq_same_length with c; [by rewrite length_replicate|done|].
  intros j x y Hj Hx [-> _]%lookup_replicate.
  pose proof (Forall_lookup_1 _ row j x Hvals Hx). simpl in *. lia.
Qed.

Lemma has_shape_map (f : Z → Z) (m : ndarray) (r c : nat) :
  has_shape m r c → has_shape (map (map f) m) r c.
Proof.
  intros [Hr Hc]. split; [by rewrite length_map|].
  apply Forall_fmap. eapply Forall_impl; [exact Hc|].
  intros row Hrow. simpl. by rewrite length_map.
Qed.

Lemma values_in_map (f : Z → Z) (m : ndarray) (lo hi lo' hi' : Z) :
  (∀ v, lo ≤ v ≤ hi → lo' ≤ f v ≤ hi') →
  values_in lo hi m → values_in lo' hi' (map (map f) m).
Proof.
  intros Hf Hm. unfold values_in in *.
  apply Forall_fmap. eapply Forall_impl; [exact Hm|].
  intros row Hrow. simpl. apply Forall_fmap.
  eapply Forall_impl; [exact Hrow|]. intros v Hv. simpl. by apply Hf.
Qed.

Lemma map_map_ext_in (f g : Z → Z) (m : ndarray) (lo hi : Z) :
  (∀ v, lo ≤ v ≤ hi → f v = g v) →
  values_in lo hi m → map (map f) m = map (map g) m.
Proof.
  intros Hfg Hm. apply map_ext_Forall.
  eapply Forall_impl; [exact Hm|]. intros row Hrow.
  apply map_ext_Forall. eapply Forall_impl; [exact Hrow|].
  intros v Hv. by apply Hfg.
Qed.

Lemma corner_resize_shape (img : image) (w h : Z) :
  has_shape (corner_resize img (w, h)) (Z.to_nat h) (Z.to_nat w).
Proof.
  unfold corner_resize. simpl. split; [apply length_replicate|].
  apply Forall_replicate, length_replicate.
Qed.

Lemma corner_resize_uint8 (img : image) (size : Z * Z) :
  values_in 0 255 (corner_resize img size).
Proof.
  unfold corner_resize, values_in.
  apply Forall_replicate, Forall_replicate. lia.
Qed.

Lemma corner_resize_constant (img : image) (size : Z * Z) (v : Z) :
  0 ≤ v ≤ 255 → img ≠ [] → Forall (λ row, row ≠ []) img →
  values_in v v img → values_in v v (corner_resize img size).
Proof.
  intros Hv Himg Hrows Hvals. unfold corner_resize, values_in.
  apply Forall_replicate, Forall_replicate.
  destruct img as [|row img]; [done|].
  inversion Hrows as [|? ? Hrow _]; subst.
  destruct row as [|x row]; [done|]. simpl.
  inversion Hvals as [|? ? Hx _]; subst. inversion Hx; subst. lia.
Qed.

Lemma getitem_map (f : Z → Z) (a : ndarray) (i j v : Z) :
  getitem a i j = Ok v → getitem (map (map f) a) i j = Ok (f v).
Proof.
  unfold getitem. rewrite length_map.
  destruct (norm_index i (length a)) as [i'|]; simpl; [|done].
  change (map (map f) a) with (map f <$> a). rewrite list_lookup_fmap.
  destruct (a !! i') as [row|]; simpl; [|done].
  rewrite length_map.
  destruct (norm_index j (length row)) as [j'|]; simpl; [|done].
  change (map f row) with (f <$> row). rewrite list_lookup_fmap.
  destruct (row !! j') as [x|]; simpl; congruence.
Qed.

Section PillowContract.

Variable resize : image → Z * Z → image.
Variable image_open : option string → result image.
Variable generate_text_image : string → result image.

(** What the code relies on from [Image.resize]: the size asked for,
    pixels that are bytes, and a filter whose weights sum to one, so
    that a constant image stays constant. *)
Hypothesis resize_shape : ∀ img w h,
  has_shape (resize img (w, h)) (Z.to_nat h) (Z.to_nat w).
Hypothesis resize_uint8 : ∀ img size, values_in 0 255 (resize img size).
Hypothesis resize_constant : ∀ img size v,
  0 ≤ v ≤ 255 → img ≠ [] → Forall (λ row, row ≠ []) img →
  values_in v v img → values_in v v (resize img size).

Lemma load_and_process_image_template (templates : registry)
    (image_path text template : option string) :
  truthy template = true →
  load_and_process_image resize image_open generate_text_image templates
    image_path text template
  = except_exit (load_template templates (default EmptyString template)).
Proof. intros Ht. unfold load_and_process_image. by rewrite Ht. Qed.

Lemma load_and_process_image_image (templates : registry)
    (image_path text template : option string) (img : image) :
  truthy template = false →
  (if truthy text then generate_text_image (default EmptyString text)
   else image_open image_path) = Ok img →
  load_and_process_image resize image_open generate_text_image templates
    image_path text template
  = Ok (map (map quantize_pixel) (resize img (GITHUB_WEEKS, GITHUB_DAYS))).
Proof.
  intros Ht Himg. unfold load_and_process_image. rewrite Ht, Himg. cbn.
  f_equal. rewrite map_map. apply map_ext. intros row.
  rewrite map_map. done.
Qed.

(** C5: the quantizer returns a 7 x 52 grid on both paths: from a
    registered template of any shape (r rows of c cells, each smaller
    than, equal to or larger than the target) by zero-padding at the
    bottom and on the right and cutting, and from an image of any size
    by resampling. *)
Theorem load_and_process_image_shape (templates : registry)
    (image_path text template : option string) :
  (∀ rows r c,
     truthy template = true →
     templates !! default EmptyString template = Some rows →
     has_shape rows r c → (0 < r)%nat →
     ∃ m,
       load_and_process_image resize image_open generate_text_image
         templates image_path text template = Ok m ∧
       m = zero_pad_truncate rows ∧ has_shape m 7 52) ∧
  (∀ img,
     truthy template = false →
     (if truthy text then generate_text_image (default EmptyString text)
      else image_open image_path) = Ok img →
     ∃ m,
       load_and_process_image resize image_open generate_text_image
         templates image_path text template = Ok m ∧
       m = map (map quantize_pixel) (resize img (52, 7)) ∧
       has_shape m 7 52).
Proof.
  split.
  - intros rows r c Ht Hlookup Hshape Hpos.
    rewrite load_and_process_image_template by done.
    rewrite (load_template_zero_pad_truncate _ _ rows r c) by done.
    eexists. split_and!; [done..|].
    by apply (zero_pad_truncate_spec rows r c).
  - intros img Ht Himg.
    rewrite (load_and_process_image_image _ _ _ _ img) by done.
    eexists. split_and!; [done..|].
    apply has_shape_map. apply (resize_shape img 52 7).
Qed.

(** C6: on the image path every cell is the floor of
    (255 - v) / 255 * 4 for the resampled byte v, hence in 0..4; an
    all-white image gives the all-zero grid and an all-black image the
    all-4 grid. *)
Theorem load_and_process_image_levels (templates : registry)
    (image_path text template : option string) (img : image) :
  truthy template = false →
  (if truthy text then generate_text_image (default EmptyString text)
   else image_open image_path) = Ok img →
  ∃ m,
    load_and_process_image resize image_open generate_text_image
      templates image_path text template = Ok m ∧
    m = map (map (λ v, 4 * (255 - v) / 255)) (resize img (52, 7)) ∧
    values_in 0 4 m ∧
    (img ≠ [] → Forall (λ row, row ≠ []) img → values_in 255 255 img →
     m = replicate 7 (replicate 52 0)) ∧
    (img ≠ [] → Forall (λ row, row ≠ []) img → values_in 0 0 img →
     m = replicate 7 (replicate 52 4)).
Proof.
  intros Ht Himg.
  rewrite (load_and_process_image_image _ _ _ _ img) by done.
  unfold GITHUB_WEEKS, GITHUB_DAYS.
  pose proof (resize_shape img 52 7) as Hshape.
  pose proof (resize_uint8 img (52, 7)) as Hbytes.
  eexists. split_and!; [done| | | |].
  - apply (map_map_ext_in _ _ _ 0 255); [|done].
    apply quantize_pixel_floor.
  - apply (values_in_map _ _ 0 255); [|done]. apply quantize_pixel_range.
  - intros Hne Hrows Hwhite.
    apply (constant_grid _ 7 52); [by apply has_shape_map|].
    apply (values_in_map _ _ 255 255).
    + intros v Hv. by replace v with 255 by lia.
    + apply resize_constant; [lia|done..].
  - intros Hne Hrows Hblack.
    apply (constant_grid _ 7 52); [by apply has_shape_map|].
    apply (values_in_map _ _ 0 0).
    + intros v Hv. by replace v with 0 by lia.
    + apply resize_constant; [lia|done..].
Qed.

(** C10: on the image path a cell is the truncation of
    (255 - v) / 255 * 4 for the resampled byte v, so it is 4 only for
    v = 0 and at most 3 from v = 1 on: of the 256 bytes, 64 fall in each
    of the levels 0, 1 and 2, 63 in level 3 and one, pure black, in
    level 4. *)
Theorem top_level_only_for_black (templates : registry)
    (image_path text template : option string) (img : image) :
  truthy template = false →
  (if truthy text then generate_text_image (default EmptyString text)
   else image_open image_path) = Ok img →
  ∃ m,
    load_and_process_image resize image_open generate_text_image
      templates image_path text template = Ok m ∧
    (∀ day week v,
       getitem (resize img (52, 7)) day week = Ok v →
       getitem m day week = Ok (quantize_pixel v)) ∧
    (∀ v, 0 ≤ v ≤ 255 →
       quantize_pixel v = 4 * (255 - v) / 255 ∧
       (quantize_pixel v = 4 ↔ v = 0) ∧
       (1 ≤ v → quantize_pixel v ≤ 3)) ∧
    (λ level, length (filter (λ v, quantize_pixel v = level) (range 256)))
      <$> [0; 1; 2; 3; 4]
    = [64; 64; 64; 63; 1]%nat.
Proof.
  intros Ht Himg.
  rewrite (load_and_process_image_image _ _ _ _ img) by done.
  eexists. split_and!; [done| | |].
  - intros day week v Hv. by apply getitem_map.
  - intros v Hv. rewrite quantize_pixel_floor by done.
    split_and!; [done| |].
    + split.
      * intros H4. apply Z.le_antisymm; [|lia].
        apply Z.nlt_ge. intros Hpos.
        assert (4 * (255 - v) / 255 < 4)
          by (apply Z.div_lt_upper_bound; lia). lia.
      * by intros ->.
    + intros Hpos.
      assert (4 * (255 - v) / 255 < 4)
        by (apply Z.div_lt_upper_bound; lia). lia.
  - by vm_compute.
Qed.

(** ** The empty schedule *)

Lemma push_to_github_no_commits (git_ok isatty : bool) (today : datetime)
    (response : string) (templates : registry) (repo branch : string)
    (weeks_ago : Z) (image_path text template : option string)
    (dry_run : bool) (m : ndarray) :
  load_and_process_image resize image_open generate_text_image templates
    image_path text template = Ok m →
  generate_commit_dates today m weeks_ago = Ok [] →
  push_to_github resize image_open generate_text_image git_ok isatty today
    response templates repo branch weeks_ago image_path text template
    dry_run
  = if git_ok
    then mk_run [MsgProcessing; MsgGenerating; MsgNoCommits] (Ok [])
    else mk_run [MsgGitRequired] (Ok []).
Proof.
  intros Hload Hdates. unfold push_to_github.
  destruct git_ok; simpl; [|done]. by rewrite Hload, Hdates.
Qed.

End PillowContract.

Lemma grid_commits_all_zero (start : datetime) (m : ndarray) :
  values_in 0 0 m → grid_commits start m = [].
Proof.
  intros Hzero. unfold grid_commits.
  apply bind_nil_all. intros week _. unfold week_commits.
  apply bind_nil_all. intros day _. unfold cell_commits.
  pose proof (cell_values_in 0 0 m day week ltac:(lia) Hzero).
  by rewrite range_nonpos by lia.
Qed.

(** On an all-zero grid no date of a cell is computed: the loops return
    the empty schedule from any anchor. *)
Lemma generate_commit_dates_all_zero (today anchor : datetime) (m : ndarray)
    (weeks_ago : Z) :
  has_shape m 7 52 → values_in 0 0 m →
  start_date today weeks_ago = Ok anchor →
  generate_commit_dates today m weeks_ago = Ok [].
Proof.
  intros Hshape Hzero Hstart. unfold generate_commit_dates.
  rewrite Hstart. cbn.
  rewrite (for_each_app_ok (λ _, [])).
  { reflexivity. }
  intros week acc Hweek. apply elem_of_range in Hweek.
  rewrite (for_each_app_ok (λ _, [])).
  { reflexivity. }
  intros day acc' Hday. apply elem_of_range in Hday.
  unfold GITHUB_WEEKS, GITHUB_DAYS in *.
  rewrite (getitem_in_shape m 7 52) by (done || lia). cbn.
  pose proof (cell_values_in 0 0 m day week ltac:(lia) Hzero).
  destruct (Z.ltb_spec 0 (cell m day week)); [lia|].
  by rewrite app_nil_r.
Qed.

Section EmptySchedule.

Variable resize : image → Z * Z → image.
Variable image_open : option string → result image.
Variable generate_text_image : string → result image.

(** C8 (amended): for an all-zero 7 x 52 grid, any current moment and
    any week offset whose offset date (now minus 52 + offset weeks) is a
    date of the calendar from 7 January of year 1 to 31 December 9999,
    the schedule is the empty sequence; [push_to_github] then returns
    normally, without an exception or exit and with no write event
    performed, after printing that there are no commits to create.  For
    any other offset the scheduler raises OverflowError, which
    [push_to_github] does not catch: the run ends in that exception
    after the line that announces the dates. *)
Theorem empty_schedule_is_reported (git_ok isatty : bool)
    (today : datetime) (response : string) (templates : registry)
    (repo branch : string) (weeks_ago : Z)
    (image_path text template : option string) (dry_run : bool)
    (m : ndarray) :
  has_shape m 7 52 → values_in 0 0 m → valid_date today →
  let r :=
    push_to_github resize image_open generate_text_image git_ok isatty
      today response templates repo branch weeks_ago image_path text
      template dry_run in
  (anchor_in_calendar today weeks_ago →
   generate_commit_dates today m weeks_ago = Ok [] ∧
   (load_and_process_image resize image_open generate_text_image templates
      image_path text template = Ok m →
    returned r = Ok [] ∧
    (git_ok = true →
     stdout r = [MsgProcessing; MsgGenerating; MsgNoCommits]))) ∧
  (¬ anchor_in_calendar today weeks_ago →
   generate_commit_dates today m weeks_ago = Raise OverflowError ∧
   (load_and_process_image resize image_open generate_text_image templates
      image_path text template = Ok m →
    git_ok = true →
    returned r = Raise OverflowError ∧
    stdout r = [MsgProcessing; MsgGenerating])).
Proof.
  intros Hshape Hzero Hvalid r. subst r. split.
  - intros Hcal.
    destruct (start_date_ok today weeks_ago Hvalid Hcal)
      as (offset_date & anchor & _ & _ & _ & Hstart).
    assert (generate_commit_dates today m weeks_ago = Ok []) as Hdates
      by by apply (generate_commit_dates_all_zero _ anchor).
    split; [done|]. intros Hload.
    rewrite (push_to_github_no_commits _ _ _ _ _ _ _ _ _ _ _ _ _ _ _ m)
      by done.
    by destruct git_ok.
  - intros Hcal.
    assert (generate_commit_dates today m weeks_ago = Raise OverflowError)
      as Hdates by by apply generate_commit_dates_overflow.
    split; [done|]. intros Hload ->.
    unfold push_to_github. simpl. by rewrite Hload, Hdates.
Qed.

End EmptySchedule.

(** C8 as stated, for any week offset, fails: with the all-zero template
    ["blank"] in the registry and git available, a push scheduled 105700
    weeks back on Tuesday 2027-01-19 does not report an empty schedule;
    it ends in OverflowError. *)
Lemma empty_schedule_is_reported_counterexample :
  let templates := <["blank"%string := [[0]]]> _load_templates in
  let no_image := λ _ : option string, @Raise image ValueError in
  let no_text := λ _ : string, @Raise image ValueError in
  let r :=
    push_to_github corner_resize no_image no_text true false
      (mk_datetime 740000 13 45 7 123) "yes" templates "user/repo"
      "contribution" 105700 None None (Some "blank"%string) false in
  load_and_process_image corner_resize no_image no_text templates None None
    (Some "blank"%string) = Ok (replicate 7 (replicate 52 0)) ∧
  generate_commit_dates (mk_datetime 740000 13 45 7 123)
    (replicate 7 (replicate 52 0)) 105700 = Raise OverflowError ∧
  returned r = Raise OverflowError ∧
  stdout r = [MsgProcessing; MsgGenerating] ∧
  generate_commit_dates (mk_datetime 740000 13 45 7 123)
    (replicate 7 (replicate 52 0)) 105700 ≠ Ok [] ∧
  returned r ≠ Ok [].
Proof. by vm_compute. Qed.

(** The all-zero template ["blank"], one row of one cell, added to the
    built-in registry, pushed with git available and no dry run, three
    weeks back. *)
Lemma empty_schedule_is_reported_witness :
  let templates := <["blank"%string := [[0]]]> _load_templates in
  let no_image := λ _ : option string, @Raise image ValueError in
  let no_text := λ _ : string, @Raise image ValueError in
  let r :=
    push_to_github corner_resize no_image no_text true false
      (mk_datetime 740000 13 45 7 123) "yes" templates "user/repo"
      "contribution" 3 None None (Some "blank"%string) false in
  returned r = Ok [] ∧
  stdout r = [MsgProcessing; MsgGenerating; MsgNoCommits].
Proof.
  intros templates no_image no_text r.
  destruct (empty_schedule_is_reported corner_resize no_image no_text
              true false (mk_datetime 740000 13 45 7 123) "yes" templates
              "user/repo" "contribution" 3 None None (Some "blank"%string)
              false (replicate 7 (replicate 52 0)))
    as [Hreport _].
  - split; [reflexivity|]. by repeat constructor.
  - unfold values_in. compute_done.
  - calendar.
  - destruct Hreport as [_ Hpush]; [calendar|].
    destruct Hpush as [Hret Hout]; [by vm_compute|].
    split; [exact Hret | exact (Hout eq_refl)].
Defined.

(** ** Export and import of the registry *)

Lemma dict_of_members_snoc (members : list (string * pattern))
    (kv : string * pattern) :
  dict_of_members (members ++ [kv])
  = <[kv.1 := kv.2]> (dict_of_members members).
Proof. unfold dict_of_members. by rewrite fold_left_app. Qed.

Lemma dict_of_members_list_to_map (members : list (string * pattern)) :
  dict_of_members members = list_to_map (reverse members).
Proof.
  induction members as [|[k v] members IH] using rev_ind; [done|].
  rewrite dict_of_members_snoc, reverse_snoc, list_to_map_cons, IH. done.
Qed.

(** [json.load] of what [json.dump] wrote gives the registry back. *)
Lemma dict_of_members_json_dump (templates : registry) :
  dict_of_members (map_to_list templates) = templates.
Proof.
  rewrite dict_of_members_list_to_map.
  rewrite <- (list_to_map_to_list templates) at 2.
  symmetry. apply list_to_map_proper.
  - apply NoDup_fst_map_to_list.
  - symmetry. apply reverse_Permutation.
Qed.

Lemma update_covered (d data : registry) :
  dom d ⊆ dom data → update d data = data.
Proof.
  intros Hdom. unfold update. apply map_eq. intros k.
  rewrite lookup_union.
  destruct (data !! k) as [v|] eqn:Hdata; simpl.
  - by destruct (d !! k).
  - destruct (d !! k) as [v|] eqn:Hd; [|done].
    assert (k ∈ dom data) as Hin by (apply Hdom, elem_of_dom; eauto).
    apply elem_of_dom in Hin as [v' Hv']. congruence.
Qed.

Lemma import_templates_dom (templates : registry) (json_path : string)
    (fs : filesystem) :
  dom templates ⊆ dom (import_templates templates json_path fs).1.
Proof.
  unfold import_templates.
  destruct (contents fs !! json_path) as [[members|]|]; simpl; [|done..].
  unfold update. rewrite dom_union. set_solver.
Qed.

Lemma reachable_has_builtins (templates : registry) :
  reachable templates → dom _load_templates ⊆ dom templates.
Proof.
  induction 1 as [|templates json_path fs _ IH]; [done|].
  etrans; [exact IH|]. apply import_templates_dom.
Qed.

Lemma import_after_export (templates target : registry) (json_path : string)
    (fs : filesystem) :
  json_path ∉ read_only fs →
  (import_templates target json_path
     (export_templates templates json_path fs).1).1
  = update target templates.
Proof.
  intros Hrw. unfold export_templates.
  destruct (decide (json_path ∈ read_only fs)); [done|]. simpl.
  unfold import_templates. simpl. rewrite lookup_insert_eq. simpl.
  by rewrite dict_of_members_json_dump.
Qed.

(** C9: what [export_templates] writes, [import_templates] reads back:
    imported into an empty mapping it gives the exported registry, name by
    name, and imported into the registry of a new process (the built-in
    templates) it gives back every registry a process can hold. *)
Theorem export_import_roundtrip (templates : registry) (json_path : string)
    (fs : filesystem) :
  json_path ∉ read_only fs →
  let fs' := (export_templates templates json_path fs).1 in
  (import_templates ∅ json_path fs').1 = templates ∧
  (reachable templates →
   (import_templates _load_templates json_path fs').1 = templates ∧
   ∀ name, (import_templates _load_templates json_path fs').1 !! name
           = templates !! name).
Proof.
  intros Hrw fs'. subst fs'. rewrite !import_after_export by done. split.
  - apply update_covered. rewrite dom_empty. set_solver.
  - intros Hreach.
    rewrite update_covered by by apply reachable_has_builtins. done.
Qed.

(** The statement of C9 at a registry that is not the initial one: a
    process imports a file that adds the template ["star"] and replaces
    ["heart"], exports its registry, and a new process imports the
    export.  The new process then holds the first one's registry, which
    differs from the built-in templates it started with. *)
Lemma export_import_roundtrip_witness :
  let custom :=
    DObject [("star"%string, [[0;4;0];[4;4;4];[0;4;0]]);
             ("heart"%string, [[1;1];[1;1]])] in
  let fs := mk_filesystem {["custom.json"%string := custom]} ∅ in
  let templates := (import_templates _load_templates "custom.json" fs).1 in
  let fs' := (export_templates templates "templates.json" fs).1 in
  let imported := (import_templates _load_templates "templates.json" fs').1 in
  imported = templates ∧
  imported !! "star"%string = Some [[0;4;0];[4;4;4];[0;4;0]] ∧
  imported !! "heart"%string = Some [[1;1];[1;1]] ∧
  imported !! "skull"%string = _load_templates !! "skull"%string ∧
  _load_templates !! "star"%string = None ∧
  _load_templates !! "heart"%string ≠ Some [[1;1];[1;1]].
Proof.
  intros custom fs templates fs' imported.
  destruct (export_import_roundtrip templates "templates.json" fs)
    as [_ Hfresh].
  { simpl. apply not_elem_of_empty. }
  destruct (Hfresh (reachable_import _ "custom.json" fs reachable_init))
    as [Heq _].
  assert (imported = templates) as Himported by exact Heq.
  clearbody imported. subst imported.
  split_and!; by vm_compute.
Defined.

(** ** The claims at concrete inputs *)

(** A template of 9 rows of 60 cells, all 3: the result is 7 x 52, and 3
    stays 3. *)
Lemma load_template_preserves_values_witness :
  load_template (<["wide"%string := replicate 9 (replicate 60 3)]>
                   _load_templates) "wide"
  = Ok (replicate 7 (replicate 52 3)).
Proof.
  destruct (load_template_preserves_values
              (<["wide"%string := replicate 9 (replicate 60 3)]>
                 _load_templates)
              "wide" (replicate 9 (replicate 60 3)) 9 60)
    as (m & Hrun & _ & _ & _ & Hbig).
  - by vm_compute.
  - split; [reflexivity|]. by repeat constructor.
  - lia.
  - rewrite Hrun, (Hbig eq_refl eq_refl). reflexivity.
Defined.

(** The built-in template ["smile"] (8 rows of 8 cells), and a 2 x 2
    image, resampled by [corner_resize]. *)
Lemma load_and_process_image_shape_witness :
  let no_image := λ _ : option string, @Raise image ValueError in
  let no_text := λ _ : string, @Raise image ValueError in
  let one_image := λ _ : option string, Ok [[255; 0]; [0; 255]] in
  (∃ m, load_and_process_image corner_resize no_image no_text
          _load_templates None None (Some "smile"%string) = Ok m ∧
        has_shape m 7 52) ∧
  (∃ m, load_and_process_image corner_resize one_image no_text
          _load_templates (Some "image.png"%string) None None = Ok m ∧
        has_shape m 7 52).
Proof.
  intros no_image no_text one_image. split.
  - destruct (proj1 (load_and_process_image_shape corner_resize no_image
                       no_text corner_resize_shape _load_templates
                       None None (Some "smile"%string))
                (default [] (_load_templates !! "smile"%string)) 8%nat 8%nat)
      as (m & Hrun & _ & Hshape).
    + reflexivity.
    + by vm_compute.
    + split; [by vm_compute|]. vm_compute. by repeat constructor.
    + lia.
    + exists m. split; [exact Hrun | exact Hshape].
  - destruct (proj2 (load_and_process_image_shape corner_resize one_image
                       no_text corner_resize_shape _load_templates
                       (Some "image.png"%string) None None)
                [[255; 0]; [0; 255]]) as (m & Hrun & _ & Hshape).
    + reflexivity.
    + reflexivity.
    + exists m. split; [exact Hrun | exact Hshape].
Defined.

(** An all-white 2 x 2 image gives the all-zero grid. *)
Lemma load_and_process_image_levels_witness :
  let no_text := λ _ : string, @Raise image ValueError in
  let white_image := λ _ : option string, Ok [[255; 255]; [255; 255]] in
  load_and_process_image corner_resize white_image no_text _load_templates
    (Some "white.png"%string) None None
  = Ok (replicate 7 (replicate 52 0)).
Proof.
  intros no_text white_image.
  destruct (load_and_process_image_levels corner_resize white_image no_text
              corner_resize_shape corner_resize_uint8 corner_resize_constant
              _load_templates (Some "white.png"%string) None None
              [[255; 255]; [255; 255]])
    as (m & Hrun & _ & _ & Hwhite & _).
  - reflexivity.
  - reflexivity.
  - rewrite Hrun. f_equal. apply Hwhite.
    + discriminate.
    + by repeat constructor.
    + unfold values_in. compute_done.
Defined.

(** A 2 x 2 image with one black pixel: the bytes 0 and 1 are quantized
    to 4 and to 3. *)
Lemma top_level_only_for_black_witness :
  quantize_pixel 0 = 4 ∧ quantize_pixel 1 ≤ 3.
Proof.
  destruct (top_level_only_for_black corner_resize
              (λ _ : option string, Ok [[0; 1]; [1; 1]])
              (λ _ : string, @Raise image ValueError)
              _load_templates (Some "dot.png"%string) None None
              [[0; 1]; [1; 1]])
    as (m & _ & _ & Hlevels & _).
  - reflexivity.
  - reflexivity.
  - split.
    + apply (Hlevels 0); [lia|reflexivity].
    + apply (Hlevels 1); lia.
Defined.

(** * Further properties of the scheduler *)

Lemma for_each_ok_or {A S : Type} (e : exn) (xs : list A)
    (body : A → S → result S) (s : S) :
  (∀ x s', x ∈ xs → ok_or e (body x s')) → ok_or e (for_each xs body s).
Proof.
  revert s. induction xs as [|x xs IH]; intros s Hbody; [done|].
  simpl. pose proof (Hbody x s ltac:(left)) as Hx.
  destruct (body x s) as [s'|e']; simpl in *; [|done].
  apply IH. intros; apply Hbody; by right.
Qed.

Lemma for_each_raises {A S : Type} (e : exn) (xs : list A)
    (body : A → S → result S) (x0 : A) (s : S) :
  (∀ x s', x ∈ xs → ok_or e (body x s')) →
  x0 ∈ xs → (∀ s', body x0 s' = Raise e) →
  for_each xs body s = Raise e.
Proof.
  revert s. induction xs as [|x xs IH]; intros s Hbody Hin Hx0.
  - by apply elem_of_nil in Hin.
  - simpl. apply elem_of_cons in Hin as [<-|Hin].
    + by rewrite Hx0.
    + pose proof (Hbody x s ltac:(left)) as Hx.
      destruct (body x s) as [s'|e']; simpl in *; [|by subst].
      apply IH; [|done..]. intros; apply Hbody; by right.
Qed.

Lemma getitem_ok_or (m : ndarray) (i j : Z) : ok_or IndexError (getitem m i j).
Proof.
  unfold getitem.
  destruct (norm_index i (length m) ≫= (m !!.)) as [row|]; [|done].
  by destruct (norm_index j (length row) ≫= (row !!.)).
Qed.

Lemma norm_index_length (n : nat) : norm_index (Z.of_nat n) n = None.
Proof.
  unfold norm_index.
  destruct (Z.leb_spec 0 (Z.of_nat n)), (Z.ltb_spec (Z.of_nat n) (Z.of_nat n)),
    (Z.leb_spec (- Z.of_nat n) (Z.of_nat n)), (Z.ltb_spec (Z.of_nat n) 0);
    simpl; done || lia.
Qed.

Lemma for_each_ext {A S : Type} (xs : list A)
    (body body' : A → S → result S) (s : S) :
  (∀ x s', x ∈ xs → body x s' = body' x s') →
  for_each xs body s = for_each xs body' s.
Proof.
  revert s. induction xs as [|x xs IH]; intros s Hbody; [done|].
  simpl. rewrite Hbody by left.
  destruct (body' x s) as [s'|e]; [|done]. cbn.
  apply IH. intros; apply Hbody; by right.
Qed.

(** X1: on a rectangular grid with fewer than 7 rows or fewer than 52
    columns [generate_commit_dates] raises, whatever the cells hold:
    [IndexError] at an offset whose graph lies within the calendar, and
    [OverflowError], before any cell is read, at an offset that has no
    anchor. *)
Theorem generate_commit_dates_small_grid (today : datetime) (m : ndarray)
    (weeks_ago : Z) (r c : nat) :
  has_shape m r c → (r < 7)%nat ∨ (c < 52)%nat → valid_date today →
  (in_calendar today weeks_ago →
   generate_commit_dates today m weeks_ago = Raise IndexError) ∧
  (¬ anchor_in_calendar today weeks_ago →
   generate_commit_dates today m weeks_ago = Raise OverflowError).
Proof.
  intros [Hr Hc] Hsmall Hvalid.
  split; [|by apply generate_commit_dates_overflow].
  intros Hcal.
  destruct (start_date_ok today weeks_ago)
    as (offset_date & anchor & _ & _ & _ & Hstart); [done|calendar|].
  unfold generate_commit_dates. rewrite Hstart. cbn.
  pose proof (start_date_Ok_inv _ _ _ Hstart) as Hlo.
  pose proof (start_date_Ok_ordinal _ _ _ Hstart) as Hord.
  clear Hstart.
  assert (∀ week day s, 0 ≤ week < 52 → 0 ≤ day < 7 →
    ok_or IndexError
      (intensity ← getitem m day week;
       if 0 <? intensity then
         delta ← timedelta week day;
         commit_date ← dt_add anchor delta;
         for_each (range intensity) (λ commit_num commits,
           let hour := 9 + (commit_num * 3) mod 14 in
           let minute := (commit_num * 17) mod 60 in
           commit_time ← replace commit_date hour minute;
           Ok (commits ++ [commit_time])) s
       else Ok s)) as Hbody.
  { intros week day s Hweek Hday.
    pose proof (getitem_ok_or m day week) as Hget.
    destruct (getitem m day week) as [v|e]; simpl in *; [|done].
    destruct (0 <? v); [|done].
    rewrite timedelta_ok by calendar. cbn.
    rewrite dt_add_ok by calendar. cbn.
    by rewrite repetitions_commit_time. }
  assert (∃ week day, 0 ≤ week < 52 ∧ 0 ≤ day < 7 ∧
                      getitem m day week = Raise IndexError)
    as (week & day & Hweek & Hday & Hget).
  { destruct (decide (r < 7)%nat) as [Hrows|Hrows].
    - exists 0, (Z.of_nat r). split_and!; try lia.
      unfold getitem. by rewrite <- Hr, norm_index_length.
    - exists (Z.of_nat c), 0. split_and!; try lia.
      destruct m as [|row m']; [simpl in Hr; lia|].
      inversion Hc as [|? ? Hrow _]; subst.
      unfold getitem. rewrite norm_index_in_range by (simpl; lia). simpl.
      by rewrite norm_index_length. }
  apply (for_each_raises IndexError _ _ week).
  - intros week' s Hweek'%elem_of_range. apply for_each_ok_or.
    intros day' s' Hday'%elem_of_range. by apply Hbody.
  - by apply elem_of_range.
  - intros s. apply (for_each_raises IndexError _ _ day).
    + intros day' s' Hday'%elem_of_range. by apply Hbody.
    + by apply elem_of_range.
    + intros s'. by rewrite Hget.
Qed.

(** A grid of 8 rows of 8 cells, given to the scheduler without padding
    it first, three weeks back and 105700 weeks back. *)
Lemma generate_commit_dates_small_grid_witness :
  generate_commit_dates (mk_datetime 740000 13 45 7 123)
    (replicate 8 (replicate 8 1)) 3
  = Raise IndexError ∧
  generate_commit_dates (mk_datetime 740000 13 45 7 123)
    (replicate 8 (replicate 8 1)) 105700
  = Raise OverflowError.
Proof.
  split.
  - apply (generate_commit_dates_small_grid _ _ _ 8 8).
    + split; [reflexivity|]. by repeat constructor.
    + right. lia.
    + calendar.
    + calendar.
  - apply (generate_commit_dates_small_grid _ _ _ 8 8).
    + split; [reflexivity|]. by repeat constructor.
    + right. lia.
    + calendar.
    + calendar.
Defined.
Lemma grid_commits_ext (start : datetime) (m m' : ndarray) :
  (∀ day week, 0 ≤ day < 7 → 0 ≤ week < 52 →
     cell m day week = cell m' day week) →
  grid_commits start m = grid_commits start m'.
Proof.
  intros Hcell. unfold grid_commits.
  apply Forall_bind_ext, Forall_forall. intros week Hweek%elem_of_range.
  unfold week_commits.
  apply Forall_bind_ext, Forall_forall. intros day Hday%elem_of_range.
  unfold cell_commits. by rewrite Hcell.
Qed.

Lemma slice_shape (m : ndarray) (r c : nat) :
  has_shape m r c → (7 ≤ r)%nat → (52 ≤ c)%nat →
  has_shape (slice m GITHUB_DAYS GITHUB_WEEKS) 7 52.
Proof.
  intros Hshape Hr Hc. unfold slice, GITHUB_DAYS, GITHUB_WEEKS.
  pose proof (slice_cols_shape _ _ _ 52
                (take_rows_shape m r c (Z.to_nat 7) Hshape)) as Hs.
  replace (Z.to_nat 7 `min` r)%nat with 7%nat in Hs by lia.
  replace (Z.to_nat 52 `min` c)%nat with 52%nat in Hs by lia.
  exact Hs.
Qed.

(** X2: on a rectangular grid of at least 7 rows and 52 columns the
    scheduler does, for every moment and every offset, what it does on
    the grid's first 7 rows and 52 columns: the cells beyond them are
    never read.  The schedule of both is produced at every offset whose
    graph lies within the calendar. *)
Theorem generate_commit_dates_ignores_beyond (today : datetime)
    (m : ndarray) (weeks_ago : Z) (r c : nat) :
  has_shape m r c → (7 ≤ r)%nat → (52 ≤ c)%nat →
  generate_commit_dates today m weeks_ago
  = generate_commit_dates today (slice m GITHUB_DAYS GITHUB_WEEKS) weeks_ago ∧
  (valid_date today → in_calendar today weeks_ago →
   ∃ commits,
     generate_commit_dates today m weeks_ago = Ok commits ∧
     generate_commit_dates today (slice m GITHUB_DAYS GITHUB_WEEKS) weeks_ago
     = Ok commits).
Proof.
  intros Hshape Hr Hc.
  assert (generate_commit_dates today m weeks_ago
          = generate_commit_dates today (slice m GITHUB_DAYS GITHUB_WEEKS)
              weeks_ago) as Hsame.
  { unfold generate_commit_dates.
    destruct (start_date today weeks_ago) as [anchor|e]; [|done]. cbn.
    apply for_each_ext. intros week s Hweek%elem_of_range.
    apply for_each_ext. intros day s' Hday%elem_of_range.
    unfold GITHUB_DAYS, GITHUB_WEEKS in *.
    rewrite (getitem_in_shape m r c) by (done || lia).
    rewrite (getitem_in_shape _ 7 52)
      by (by apply (slice_shape m r c) || lia).
    unfold slice.
    by rewrite cell_slice_cols, cell_take_rows by lia. }
  split; [done|]. intros Hvalid Hcal.
  destruct (generate_commit_dates_unfold_ge today m r c weeks_ago)
    as (anchor & _ & Hrun); [done..|].
  eexists. split; [done|]. by rewrite <- Hsame.
Qed.

(** A grid of 8 rows of 53 cells, all 1: 364 commits, as for its 7 x 52
    corner. *)
Lemma generate_commit_dates_ignores_beyond_witness :
  ∃ commits,
    generate_commit_dates (mk_datetime 740000 13 45 7 123)
      (replicate 8 (replicate 53 1)) 0 = Ok commits ∧
    generate_commit_dates (mk_datetime 740000 13 45 7 123)
      (replicate 7 (replicate 52 1)) 0 = Ok commits ∧
    length commits = 364%nat.
Proof.
  destruct (generate_commit_dates_ignores_beyond
              (mk_datetime 740000 13 45 7 123) (replicate 8 (replicate 53 1))
              0 8 53) as [_ Hboth].
  - split; [reflexivity|]. by repeat constructor.
  - lia.
  - lia.
  - destruct Hboth as (commits & Hbig & Hcorner); [calendar|calendar|].
    exists commits. split; [exact Hbig|]. split; [exact Hcorner|].
    assert (generate_commit_dates (mk_datetime 740000 13 45 7 123)
              (replicate 7 (replicate 52 1)) 0
            = Ok (grid_commits (mk_datetime 739634 13 45 7 123)
                    (replicate 7 (replicate 52 1)))) as Heq by reflexivity.
    change (slice (replicate 8 (replicate 53 1)) GITHUB_DAYS GITHUB_WEEKS)
      with (replicate 7 (replicate 52 1)) in Hcorner.
    rewrite Heq in Hcorner. injection Hcorner as <-. reflexivity.
Defined.

(** X3: at an offset whose graph lies within the calendar, every event
    of the schedule lies between 9:00 and 22:59, keeps the seconds and
    microseconds of now, is a date of the calendar, and is dated within
    the 364 days that start at most 6 days before now minus
    (52 + offset) weeks: at the latest on the day before now minus offset
    weeks, so never today or later when the offset is not negative. *)
Theorem generate_commit_dates_time_window (today : datetime) (m : ndarray)
    (weeks_ago : Z) (r c : nat) :
  has_shape m r c → (7 ≤ r)%nat → (52 ≤ c)%nat →
  valid_date today → in_calendar today weeks_ago →
  ∃ commits,
    generate_commit_dates today m weeks_ago = Ok commits ∧
    ∀ e, e ∈ commits →
      9 ≤ hour e ≤ 22 ∧ 0 ≤ minute e ≤ 59 ∧
      second e = second today ∧ microsecond e = microsecond today ∧
      valid_date e ∧
      ordinal today - 7 * (52 + weeks_ago) - 6 ≤ ordinal e
        ≤ ordinal today - 7 * weeks_ago - 1 ∧
      (0 ≤ weeks_ago → ordinal e < ordinal today).
Proof.
  intros Hshape Hr Hc Hvalid Hcal.
  destruct (generate_commit_dates_unfold_ge today m r c weeks_ago)
    as (anchor & Hstart & Hrun); [done..|].
  eexists. split; [done|].
  intros e He. unfold grid_commits, week_commits in He.
  apply list_elem_of_bind in He
    as (week & (day & He & Hday%elem_of_range)%list_elem_of_bind
        & Hweek%elem_of_range).
  unfold cell_commits in He.
  apply list_elem_of_fmap in He as (k & -> & _).
  pose proof (Z.mod_pos_bound (k * 3) 14 ltac:(lia)).
  pose proof (Z.mod_pos_bound (k * 17) 60 ltac:(lia)).
  pose proof (start_date_Ok_inv _ _ _ Hstart) as Hlo.
  pose proof (start_date_Ok_ordinal _ _ _ Hstart) as Hord.
  pose proof (start_date_Ok_time _ _ _ Hstart) as [= _ _ Hsec Hmicro].
  clear Hstart Hrun.
  unfold GITHUB_DAYS, GITHUB_WEEKS in *.
  unfold commit_time, shift. simpl.
  split_and!; try done; try calendar.
Qed.

Lemma generate_commit_dates_time_window_witness :
  ∃ commits,
    generate_commit_dates (mk_datetime 740000 13 45 7 123)
      single_cell_grid 0 = Ok commits ∧
    ∀ e, e ∈ commits → 9 ≤ hour e ≤ 22 ∧ ordinal e < 740000.
Proof.
  destruct (generate_commit_dates_time_window
              (mk_datetime 740000 13 45 7 123) single_cell_grid 0 7 52
              has_shape_single_cell_grid ltac:(lia) ltac:(lia))
    as (commits & Hrun & Hwindow); [calendar|calendar|].
  exists commits. split; [exact Hrun|]. intros e He.
  destruct (Hwindow e He) as (Hhour & _ & _ & _ & _ & _ & Hpast).
  split; [exact Hhour | exact (Hpast ltac:(lia))].
Defined.

Lemma time_of_day_table :
  NoDup ((λ k, (9 + (k * 3) mod 14, (k * 17) mod 60)) <$> range 420).
Proof. compute_done. Qed.

Lemma time_of_day_inj (j k : Z) :
  0 ≤ j < 420 → 0 ≤ k < 420 →
  (j * 3) mod 14 = (k * 3) mod 14 → (j * 17) mod 60 = (k * 17) mod 60 →
  j = k.
Proof.
  intros Hj Hk Hhour Hminute.
  pose proof (proj1 (NoDup_alt _) time_of_day_table
                (Z.to_nat j) (Z.to_nat k)
                (9 + (j * 3) mod 14, (j * 17) mod 60)) as Hinj.
  apply Z2Nat.inj; [lia|lia|]. apply Hinj.
  - rewrite list_lookup_fmap. unfold range.
    rewrite lookup_seqZ_lt, Z2Nat.id, Z.add_0_l by lia. done.
  - rewrite list_lookup_fmap. unfold range.
    rewrite lookup_seqZ_lt, Z2Nat.id, Z.add_0_l by lia. simpl.
    by rewrite Hhour, Hminute.
Qed.

Lemma cell_commits_NoDup (start : datetime) (m : ndarray) (week day : Z) :
  cell m day week ≤ 420 → NoDup (cell_commits start m week day).
Proof.
  intros Hmax. unfold cell_commits.
  apply NoDup_fmap_2_strong; [|apply NoDup_range].
  intros j k Hj%elem_of_range Hk%elem_of_range Heq.
  unfold commit_time in Heq. injection Heq as Hhour Hminute.
  apply time_of_day_inj; lia.
Qed.

Lemma StronglySorted_filter {A : Type} (R : relation A) (P : A → Prop)
    `{!∀ x, Decision (P x)} (l : list A) :
  StronglySorted R l → StronglySorted R (filter P l).
Proof.
  induction 1 as [|x l Hsorted IH Hall]; [constructor|].
  rewrite filter_cons. destruct (decide (P x)); [|done].
  constructor; [done|].
  apply Forall_forall. intros y [_ Hy]%list_elem_of_filter.
  by apply (proj1 (Forall_forall _ _) Hall).
Qed.

Lemma cell_commits_lookup (start : datetime) (m : ndarray) (week day : Z)
    (k : nat) :
  Z.of_nat k < cell m day week →
  cell_commits start m week day !! k
  = Some (commit_time (shift start (7 * week + day)) (Z.of_nat k)).
Proof.
  intros Hk. unfold cell_commits, range.
  rewrite list_lookup_fmap, lookup_seqZ_lt by done. simpl.
  by rewrite Z.add_0_l.
Qed.

Lemma StronglySorted_lookup {A : Type} (R : relation A) (l : list A)
    (i j : nat) (x y : A) :
  StronglySorted R l → (i < j)%nat →
  l !! i = Some x → l !! j = Some y → R x y.
Proof.
  intros Hsorted. revert i j.
  induction Hsorted as [|z l Hsorted IH Hall]; intros i j Hij Hx Hy;
    [done|].
  destruct j as [|j]; [lia|]. simpl in Hy. destruct i as [|i].
  - simpl in Hx. injection Hx as ->.
    apply (proj1 (Forall_forall _ _) Hall). by eapply list_elem_of_lookup_2.
  - simpl in Hx. apply (IH i j); [lia|done..].
Qed.

(** X4: on a 7 x 52 grid no two events of a schedule the scheduler
    returns, at any moment and offset, carry the same timestamp exactly
    when no cell exceeds 420: the hour repeats every 14 repetitions and
    the minute every 60, so repetition 420 of a cell repeats the
    timestamp of repetition 0.  A schedule is returned at every offset
    whose graph lies within the calendar. *)
Theorem generate_commit_dates_distinct (today : datetime) (m : ndarray)
    (weeks_ago : Z) :
  has_shape m 7 52 →
  (valid_date today → in_calendar today weeks_ago →
   ∃ commits, generate_commit_dates today m weeks_ago = Ok commits) ∧
  (∀ commits,
     generate_commit_dates today m weeks_ago = Ok commits →
     (NoDup commits ↔
      ∀ day week, 0 ≤ day < 7 → 0 ≤ week < 52 → cell m day week ≤ 420)).
Proof.
  intros Hshape. split.
  { intros Hvalid Hcal.
    destruct (generate_commit_dates_unfold today m weeks_ago)
      as (anchor & _ & Hrun); [done..|]. by eexists. }
  intros commits Hrun.
  apply (generate_commit_dates_Ok_inv _ _ 7 52) in Hrun
    as (start & _ & ->); [|done|lia|lia].
  split.
  - intros Hnodup day week Hday Hweek.
    apply Z.nlt_ge. intros Hbig.
    pose proof (NoDup_filter
      (λ e, ordinal e = ordinal start + 7 * week + day) _ Hnodup) as Hcell.
    rewrite filter_grid_commits in Hcell by done.
    pose proof (proj1 (NoDup_alt _) Hcell 0%nat 420%nat
      (commit_time (shift start (7 * week + day)) 0)) as Hclash.
    discriminate Hclash.
    + by rewrite cell_commits_lookup by lia.
    + by rewrite cell_commits_lookup by lia.
  - intros Hcells. unfold grid_commits.
    apply NoDup_bind; [| |apply NoDup_range].
    + intros w w' e _ _. unfold week_commits.
      intros (d & He%ordinal_cell_commits & Hd%elem_of_range)
        %list_elem_of_bind.
      intros (d' & He'%ordinal_cell_commits & Hd'%elem_of_range)
        %list_elem_of_bind.
      unfold GITHUB_DAYS in *. lia.
    + intros week Hweek%elem_of_range. unfold week_commits.
      apply NoDup_bind; [| |apply NoDup_range].
      * intros d d' e _ _ He%ordinal_cell_commits He'%ordinal_cell_commits.
        lia.
      * intros day Hday%elem_of_range. apply cell_commits_NoDup.
        by apply Hcells.
Qed.

Lemma generate_commit_dates_distinct_witness :
  ∃ commits,
    generate_commit_dates (mk_datetime 740000 13 45 7 123)
      single_cell_grid 0 = Ok commits ∧ NoDup commits.
Proof.
  destruct (generate_commit_dates_distinct
              (mk_datetime 740000 13 45 7 123) single_cell_grid 0
              has_shape_single_cell_grid) as [Hreturns Hiff].
  destruct Hreturns as (commits & Hrun); [calendar|calendar|].
  exists commits. split; [exact Hrun|]. apply (Hiff commits Hrun).
  intros day week _ _.
  pose proof (cell_values_in 0 4 single_cell_grid day week ltac:(lia)
                values_in_single_cell_grid). lia.
Defined.

Lemma cell_commits_sorted_5 (start : datetime) (m : ndarray) (week day : Z) :
  cell m day week ≤ 5 →
  StronglySorted dt_le (cell_commits start m week day).
Proof.
  intros Hmax. unfold cell_commits.
  apply (StronglySorted_fmap _ (λ j k, 0 ≤ j < k ∧ k < 5) dt_le).
  - intros j k Hjk. apply dt_le_same_day; [done|]. simpl.
    assert (j = 0 ∨ j = 1 ∨ j = 2 ∨ j = 3) as Hj by lia.
    assert (k = 1 ∨ k = 2 ∨ k = 3 ∨ k = 4) as Hk by lia.
    destruct Hj as [->|[->|[->| ->]]], Hk as [->|[->|[->| ->]]];
      first [lia | reflexivity].
  - pose proof (StronglySorted_range (cell m day week)) as Hsorted.
    assert (Forall (λ k, 0 ≤ k < 5) (range (cell m day week))) as Hall.
    { apply Forall_forall. intros k Hk%elem_of_range. lia. }
    induction Hsorted as [|k l Hl IH Hk]; constructor.
    + apply IH. by inversion Hall.
    + inversion Hall as [|? ? Hk5 Hl5]; subst.
      apply Forall_forall. intros j Hj.
      pose proof (proj1 (Forall_forall _ _) Hk j Hj).
      pose proof (proj1 (Forall_forall _ _) Hl5 j Hj). simpl in *. lia.
Qed.

(** X5: on a 7 x 52 grid a schedule the scheduler returns, at any
    moment and offset, is chronologically sorted exactly when no cell
    exceeds 5: the sixth repetition of a cell is stamped 10:25, after the
    fifth at 21:08 of the same day.  A schedule is returned at every
    offset whose graph lies within the calendar. *)
Theorem generate_commit_dates_sorted_iff (today : datetime) (m : ndarray)
    (weeks_ago : Z) :
  has_shape m 7 52 →
  (valid_date today → in_calendar today weeks_ago →
   ∃ commits, generate_commit_dates today m weeks_ago = Ok commits) ∧
  (∀ commits,
     generate_commit_dates today m weeks_ago = Ok commits →
     (StronglySorted dt_le commits ↔
      ∀ day week, 0 ≤ day < 7 → 0 ≤ week < 52 → cell m day week ≤ 5)).
Proof.
  intros Hshape. split.
  { intros Hvalid Hcal.
    destruct (generate_commit_dates_unfold today m weeks_ago)
      as (anchor & _ & Hrun); [done..|]. by eexists. }
  intros commits Hrun.
  apply (generate_commit_dates_Ok_inv _ _ 7 52) in Hrun
    as (start & _ & ->); [|done|lia|lia].
  split.
  - intros Hsorted day week Hday Hweek.
    apply Z.nlt_ge. intros Hbig.
    pose proof (StronglySorted_filter dt_le
      (λ e, ordinal e = ordinal start + 7 * week + day) _ Hsorted) as Hcell.
    rewrite filter_grid_commits in Hcell by done.
    pose proof (StronglySorted_lookup dt_le _ 4 5 _ _ Hcell ltac:(lia)
      (cell_commits_lookup start m week day 4 ltac:(lia))
      (cell_commits_lookup start m week day 5 ltac:(lia))) as Hle.
    unfold dt_le, dt_leb, dt_key, commit_time in Hle. simpl in Hle.
    rewrite Z.ltb_irrefl, Z.eqb_refl in Hle. discriminate Hle.
  - intros Hcells. unfold grid_commits.
    apply (StronglySorted_bind Z.lt); [apply StronglySorted_range| |].
    + intros week Hweek%elem_of_range. unfold week_commits.
      apply (StronglySorted_bind Z.lt); [apply StronglySorted_range| |].
      * intros day Hday%elem_of_range. apply cell_commits_sorted_5.
        by apply Hcells.
      * intros d d' a b _ _ Hlt Ha%ordinal_cell_commits
          Hb%ordinal_cell_commits.
        apply dt_le_earlier_day. lia.
    + intros w w' a b _ _ Hlt. unfold week_commits.
      intros (d & Ha%ordinal_cell_commits & Hd%elem_of_range)
        %list_elem_of_bind.
      intros (d' & Hb%ordinal_cell_commits & Hd'%elem_of_range)
        %list_elem_of_bind.
      apply dt_le_earlier_day. unfold GITHUB_DAYS in *. lia.
Qed.

(** A grid whose cell (0, 0) is 6: its schedule is not sorted. *)
Lemma generate_commit_dates_sorted_iff_witness :
  ∃ commits,
    generate_commit_dates (mk_datetime 740000 13 45 7 123)
      ((6 :: replicate 51 0) :: replicate 6 (replicate 52 0)) 0
    = Ok commits ∧ ¬ StronglySorted dt_le commits.
Proof.
  destruct (generate_commit_dates_sorted_iff
              (mk_datetime 740000 13 45 7 123)
              ((6 :: replicate 51 0) :: replicate 6 (replicate 52 0)) 0)
    as [Hreturns Hiff].
  - split; [reflexivity|]. by repeat constructor.
  - destruct Hreturns as (commits & Hrun); [calendar|calendar|].
    exists commits. split; [exact Hrun|]. intros Hsorted.
    pose proof (proj1 (Hiff commits Hrun) Hsorted 0 0 ltac:(lia) ltac:(lia))
      as Hcell.
    vm_compute in Hcell. by apply Hcell.
Defined.

(** * Further properties of the quantizer *)

(** X6: the darker the resampled byte the higher the level, and the level
    is 0, so that the pixel yields no commit, exactly for the bytes from
    192 up. *)
Theorem quantize_pixel_antitone (v v' : Z) :
  0 ≤ v → v ≤ v' → v' ≤ 255 →
  quantize_pixel v' ≤ quantize_pixel v ∧
  (quantize_pixel v = 0 ↔ 192 ≤ v).
Proof.
  intros Hv Hvv' Hv'. rewrite !quantize_pixel_floor by lia. split.
  - apply Z.div_le_mono; lia.
  - split.
    + intros Hzero. apply Z.nlt_ge. intros Hdark.
      assert (1 ≤ 4 * (255 - v) / 255)
        by (apply Z.div_le_lower_bound; lia). lia.
    + intros Hlight. apply Z.div_small. lia.
Qed.

Lemma quantize_pixel_antitone_witness :
  quantize_pixel 200 ≤ quantize_pixel 100 ∧ quantize_pixel 100 ≠ 0.
Proof.
  destruct (quantize_pixel_antitone 100 200 ltac:(lia) ltac:(lia) ltac:(lia))
    as [Hle Hzero].
  split; [exact Hle|]. intros H0. apply Hzero in H0. lia.
Defined.

Section LoadErrors.

Variable resize : image → Z * Z → image.
Variable image_open : option string → result image.
Variable generate_text_image : string → result image.

(** X7: [load_and_process_image] fails by [SystemExit] only; for a
    template name that is not registered (where [load_template] itself
    exits), or that is registered with no rows or with rows of unequal
    length, it exits with code 1. *)
Theorem load_and_process_image_exits (templates : registry)
    (image_path text template : option string) :
  (∀ e,
     load_and_process_image resize image_open generate_text_image templates
       image_path text template = Raise e →
     ∃ code, e = SystemExit code) ∧
  (truthy template = true →
   ∀ name, template = Some name →
     (templates !! name = None →
      load_template templates name = Raise (SystemExit 1) ∧
      load_and_process_image resize image_open generate_text_image
        templates image_path text template = Raise (SystemExit 1)) ∧
     (∀ rows,
        templates !! name = Some rows →
        rows = [] ∨
        (∃ row row', rows !! 0%nat = Some row ∧ row' ∈ rows ∧
                     length row' ≠ length row) →
        load_and_process_image resize image_open generate_text_image
          templates image_path text template = Raise (SystemExit 1))).
Proof.
  split.
  - intros e. unfold load_and_process_image, except_exit.
    match goal with
    | |- match ?r with _ => _ end = _ → _ => destruct r as [a|[| |code| |]]
    end; intros Heq; simplify_eq; eauto.
  - intros Ht name ->.
    assert (∀ r : result ndarray,
              load_template templates name = r →
              load_and_process_image resize image_open generate_text_image
                templates image_path text (Some name) = except_exit r)
      as Hload.
    { intros r <-. unfold load_and_process_image. by rewrite Ht. }
    split.
    + intros Hmissing.
      assert (load_template templates name = Raise (SystemExit 1)) as Hrun
        by (unfold load_template; by rewrite Hmissing).
      split; [done|]. by rewrite (Hload _ Hrun).
    + intros rows Hrows Hbad.
      assert (np_array rows = Raise ValueError) as Harray.
      { destruct Hbad as [->|(row & row' & Hrow & Hin & Hlen)]; [done|].
        destruct rows as [|row0 rows]; [done|].
        simpl in Hrow. injection Hrow as ->. unfold np_array.
        destruct (forallb _ rows) eqn:Hall; [|done].
        apply elem_of_cons in Hin as [->|Hin]; [done|].
        rewrite forallb_forall in Hall.
        apply list_elem_of_In, Hall, Nat.eqb_eq in Hin. done. }
      assert (load_template templates name = Raise ValueError) as Hrun
        by (unfold load_template; by rewrite Hrows, Harray).
      by rewrite (Hload _ Hrun).
Qed.

End LoadErrors.

(** A name that is not registered, and the ragged template
    [[1; 2]; [3]]. *)
Lemma load_and_process_image_exits_witness :
  let no_image := λ _ : option string, @Raise image ValueError in
  let no_text := λ _ : string, @Raise image ValueError in
  load_and_process_image corner_resize no_image no_text _load_templates
    None None (Some "ghost"%string) = Raise (SystemExit 1) ∧
  load_and_process_image corner_resize no_image no_text
    (<["ragged"%string := [[1; 2]; [3]]]> _load_templates)
    None None (Some "ragged"%string) = Raise (SystemExit 1).
Proof.
  intros no_image no_text. split.
  - destruct (proj2 (load_and_process_image_exits corner_resize no_image
                       no_text _load_templates None None
                       (Some "ghost"%string))
                eq_refl "ghost"%string eq_refl) as [Hmissing _].
    exact (proj2 (Hmissing ltac:(by vm_compute))).
  - destruct (proj2 (load_and_process_image_exits corner_resize no_image
                       no_text
                       (<["ragged"%string := [[1; 2]; [3]]]> _load_templates)
                       None None (Some "ragged"%string))
                eq_refl "ragged"%string eq_refl) as [_ Hbad].
    refine (Hbad [[1; 2]; [3]] ltac:(by vm_compute) _).
    right. exists [1; 2], [3]. split_and!; [done| |done].
    apply elem_of_cons. right. apply elem_of_cons. by left.
Defined.

(** * Further properties of [push_to_github] *)





Section PushProperties.

Variable resize : image → Z * Z → image.
Variable image_open : option string → result image.
Variable generate_text_image : string → result image.

(** X8: [push_to_github] hands commits to git only if the three checks of
    [check_git_requirements] exited with status 0, the run is not a dry
    run and the answer typed is yes in any letter case; what it hands
    over is then the whole schedule of the loaded grid. *)
Theorem push_to_github_writes_only_confirmed
    (version user_name user_email : completed) (isatty : bool)
    (today : datetime) (response : string) (templates : registry)
    (repo branch : string) (weeks_ago : Z)
    (image_path text template : option string) (dry_run : bool)
    (commits : list datetime) :
  returned
    (push_to_github resize image_open generate_text_image
       (check_git_requirements version user_name user_email).1 isatty today
       response templates repo branch weeks_ago image_path text template
       dry_run) = Ok commits →
  commits ≠ [] →
  version = ExitZero ∧ user_name = ExitZero ∧ user_email = ExitZero ∧
  dry_run = false ∧ lower response = "yes"%string ∧
  ∃ m,
    load_and_process_image resize image_open generate_text_image templates
      image_path text template = Ok m ∧
    generate_commit_dates today m weeks_ago = Ok commits.
Proof.
  unfold push_to_github.
  destruct version, user_name, user_email; simpl;
    try (intros [= <-] Hne; exfalso; by apply Hne).
  destruct (load_and_process_image _ _ _ _ _ _ _) as [m|e]; simpl;
    [|intros [=]].
  destruct (generate_commit_dates today m weeks_ago) as [[|d ds]|e] eqn:Hgen;
    simpl; [intros [= <-] Hne; exfalso; by apply Hne| |intros [=]].
  destruct (quick_preview isatty m); simpl; [|intros [=]].
  destruct dry_run; simpl; [intros [= <-] Hne; exfalso; by apply Hne|].
  destruct (String.eqb (lower response) "yes") eqn:Hyes; simpl;
    [|intros [= <-] Hne; exfalso; by apply Hne].
  intros [= <-] _. apply String.eqb_eq in Hyes. eauto 10.
Qed.



End PushProperties.

(** * Further properties of import and export *)

Lemma fold_insert_lookup_notin (members : list (string * pattern))
    (d : registry) (name : string) :
  name ∉ members.*1 →
  fold_left (λ d kv, <[kv.1 := kv.2]> d) members d !! name = d !! name.
Proof.
  revert d. induction members as [|[k v] members IH]; intros d Hnotin;
    [done|].
  simpl in *. apply not_elem_of_cons in Hnotin as [Hne Hnotin].
  rewrite IH by done. by rewrite lookup_insert_ne.
Qed.

Lemma dom_dict_of_members (members : list (string * pattern)) :
  dom (dict_of_members members) = list_to_set members.*1.
Proof.
  induction members as [|[k v] members IH] using rev_ind.
  - unfold dict_of_members. simpl. by rewrite dom_empty_L.
  - rewrite dict_of_members_snoc, dom_insert_L, IH.
    rewrite fmap_app, list_to_set_app_L. simpl.
    rewrite (right_id_L ∅ (∪)). apply (comm_L (∪)).
Qed.

Lemma dict_of_members_last (l1 l2 : list (string * pattern))
    (name : string) (p : pattern) :
  name ∉ l2.*1 → dict_of_members (l1 ++ (name, p) :: l2) !! name = Some p.
Proof.
  intros Hnotin. unfold dict_of_members. rewrite fold_left_app. simpl.
  rewrite fold_insert_lookup_notin by done. apply lookup_insert_eq.
Qed.

(** X11: an import of an object in the persistence format merges: a
    name the object holds is registered with the pattern of its last
    member of that name, every other name keeps what it had, and the
    count announced is that of the object's distinct names.  A file that
    is missing or is not JSON, and a JSON value that is not an object,
    leave the registry as it was, with the error line and the
    invalid-format line. *)
Theorem import_templates_merges (templates : registry) (json_path : string)
    (fs : filesystem) :
  (∀ members,
     contents fs !! json_path = Some (DObject members) →
     (∀ l1 l2 name p,
        members = l1 ++ (name, p) :: l2 → name ∉ l2.*1 →
        (import_templates templates json_path fs).1 !! name = Some p) ∧
     (∀ name,
        name ∉ members.*1 →
        (import_templates templates json_path fs).1 !! name
        = templates !! name) ∧
     (import_templates templates json_path fs).2
     = MsgImported (Z.of_nat (size (list_to_set members.*1 : gset string)))
         json_path) ∧
  (contents fs !! json_path = None →
   import_templates templates json_path fs = (templates, MsgImportError)) ∧
  (contents fs !! json_path = Some DNotObject →
   import_templates templates json_path fs = (templates, MsgInvalidFormat)).
Proof.
  split_and!.
  - intros members Hfile. unfold import_templates. rewrite Hfile. simpl.
    unfold update. split_and!.
    + intros l1 l2 name p -> Hnotin.
      rewrite lookup_union, (dict_of_members_last l1 l2 name p) by done.
      by destruct (templates !! name).
    + intros name Hnotin. rewrite lookup_union.
      unfold dict_of_members.
      rewrite fold_insert_lookup_notin, lookup_empty by done.
      by destruct (templates !! name).
    + do 2 f_equal. rewrite <- size_dom. f_equal. apply dom_dict_of_members.
  - intros Hfile. unfold import_templates. by rewrite Hfile.
  - intros Hfile. unfold import_templates. by rewrite Hfile.
Qed.

(** A document that names ["heart"] twice and leaves ["skull"] out, and
    a file that holds a JSON array. *)
Lemma import_templates_merges_witness :
  let fs :=
    mk_filesystem
      {[ "in.json"%string :=
           DObject [("heart"%string, [[1]]); ("heart"%string, [[2]])];
         "list.json"%string := DNotObject ]} ∅ in
  (import_templates _load_templates "in.json" fs).1 !! "heart"%string
  = Some [[2]] ∧
  (import_templates _load_templates "in.json" fs).1 !! "skull"%string
  = _load_templates !! "skull"%string ∧
  (import_templates _load_templates "in.json" fs).2
  = MsgImported 1 "in.json" ∧
  import_templates _load_templates "list.json" fs
  = (_load_templates, MsgInvalidFormat).
Proof.
  intros fs.
  destruct (import_templates_merges _load_templates "in.json" fs)
    as (Hobject & _ & _).
  destruct (Hobject [("heart"%string, [[1]]); ("heart"%string, [[2]])])
    as (Hlast & Hother & Hcount).
  - by vm_compute.
  - split_and!.
    + apply (Hlast [("heart"%string, [[1]])] [] "heart"%string [[2]]);
        [reflexivity|]. apply not_elem_of_nil.
    + apply Hother. simpl. intros Hin.
      repeat (apply elem_of_cons in Hin as [Hin|Hin]; [discriminate|]).
      by apply elem_of_nil in Hin.
    + rewrite Hcount. by vm_compute.
    + apply (import_templates_merges _load_templates "list.json" fs).
      by vm_compute.
Defined.

(** X12: importing what was just exported into the registry it was
    exported from changes nothing, and importing one file a second time
    changes nothing more. *)
Theorem import_templates_idempotent (templates : registry)
    (json_path : string) (fs : filesystem) :
  (json_path ∉ read_only fs →
   (import_templates templates json_path
      (export_templates templates json_path fs).1).1 = templates) ∧
  (import_templates (import_templates templates json_path fs).1
     json_path fs).1
  = (import_templates templates json_path fs).1.
Proof.
  split.
  - intros Hrw. rewrite import_after_export by done.
    by apply update_covered.
  - unfold import_templates.
    destruct (contents fs !! json_path) as [[members|]|] eqn:Hfile; simpl;
      rewrite ?Hfile; simpl; [|done..].
    unfold update. apply map_eq. intros k. rewrite !lookup_union.
    by destruct (dict_of_members members !! k), (templates !! k).
Qed.

Lemma import_templates_idempotent_witness :
  (import_templates _load_templates "templates.json"
     (export_templates _load_templates "templates.json"
        (mk_filesystem ∅ ∅)).1).1 = _load_templates.
Proof.
  apply (proj1 (import_templates_idempotent _load_templates
                  "templates.json" (mk_filesystem ∅ ∅))).
  simpl. apply not_elem_of_empty.
Defined.

(** X13: no import removes a name: an import keeps every registered name
    registered, so every registry a process can hold has the five
    built-in names, and [load_template] never exits on one of them for
    want of the name. *)
Theorem builtin_names_stay (templates : registry) :
  (∀ json_path fs name,
     is_Some (templates !! name) →
     is_Some ((import_templates templates json_path fs).1 !! name)) ∧
  (reachable templates →
   ∀ name,
     name ∈ ["skull"; "heart"; "smile"; "diamond"; "checkmark"]%string →
     is_Some (templates !! name) ∧
     load_template templates name ≠ Raise (SystemExit 1)).
Proof.
  split.
  - intros json_path fs name Hname.
    apply elem_of_dom, (import_templates_dom templates json_path fs).
    by apply elem_of_dom.
  - intros Hreach name Hname.
    assert (is_Some (templates !! name)) as [rows Hrows].
    { apply elem_of_dom, (reachable_has_builtins templates Hreach).
      apply elem_of_dom.
      repeat (apply elem_of_cons in Hname as [->|Hname];
              [vm_compute; eauto|]).
      by apply elem_of_nil in Hname. }
    split; [eauto|]. unfold load_template. rewrite Hrows.
    destruct (np_array rows) as [a|e] eqn:Harray; simpl; [done|].
    unfold np_array in Harray. destruct rows as [|row rows]; [congruence|].
    destruct (forallb _ rows); congruence.
Qed.

Lemma builtin_names_stay_witness :
  is_Some
    ((import_templates _load_templates "in.json"
        (mk_filesystem {[ "in.json"%string := DObject [] ]} ∅)).1
     !! "smile"%string).
Proof.
  destruct (proj2 (builtin_names_stay
                     (import_templates _load_templates "in.json"
                        (mk_filesystem
                           {[ "in.json"%string := DObject [] ]} ∅)).1)
              (reachable_import _ _ _ reachable_init) "smile"%string)
    as [Hsome _].
  - apply elem_of_cons. right. apply elem_of_cons. right.
    apply elem_of_cons. by left.
  - exact Hsome.
Defined.

(** * Printing grids: [list_templates] and [preview_contribution_graph] *)

















Section PreviewProperties.

Variable resize : image → Z * Z → image.
Variable image_open : option string → result image.
Variable generate_text_image : string → result image.





End PreviewProperties.

(** * Git *)

(** No [GitPush] among the commands of a short explicit list. *)
Ltac no_push :=
  let Hin := fresh "Hin" in
  first [intros [|Hin]; [done|] | intros Hin];
  repeat (apply elem_of_cons in Hin as [Hin|Hin]; [done|]);
  by apply elem_of_nil in Hin.

Lemma commit_loop_prefix (ok : nat → bool) (total i : Z) (n : nat)
    (dates : list datetime) :
  (commit_loop ok total i n dates).1.1.2
    `prefix_of` numbered_commits total i dates ∧
  ((commit_loop ok total i n dates).2 = true →
   (commit_loop ok total i n dates).1.1.2 = numbered_commits total i dates).
Proof.
  revert i n. induction dates as [|d dates IH]; intros i n; simpl.
  - split; [done|done].
  - destruct (ok n); simpl; [|split; [apply prefix_nil|done]].
    destruct (ok (S n)); simpl; [|split; [apply prefix_nil|done]].
    destruct (IH (i + 1) (S (S n))) as [Hprefix Hall].
    destruct (commit_loop ok total (i + 1) (S (S n)) dates)
      as [[[calls commits] lines] finished]. simpl in *.
    split; [by apply prefix_cons|]. intros Hfin. by rewrite Hall.
Qed.

Lemma commit_loop_all_ok (ok : nat → bool) (total i : Z) (n : nat)
    (dates : list datetime) :
  (∀ k, ok k = true) →
  commit_loop ok total i n dates
  = ((numbered_commits total i dates ≫= λ c, [GitAdd; GitCommit c]),
     numbered_commits total i dates,
     (λ j, MsgProgress j total)
       <$> filter (λ j, j mod 25 = 0 ∨ j = total)
             (seqZ (i + 1) (Z.of_nat (length dates))),
     true).
Proof.
  intros Hok. revert i n. induction dates as [|d dates IH]; intros i n.
  - done.
  - cbn [commit_loop]. rewrite !Hok. cbn [negb]. rewrite IH.
    cbn [numbered_commits]. rewrite bind_cons.
    change (length (d :: dates)) with (S (length dates)).
    rewrite (seqZ_cons (i + 1)) by lia. rewrite filter_cons.
    replace (Z.pred (Z.of_nat (S (length dates))))
      with (Z.of_nat (length dates)) by lia.
    replace (Z.succ (i + 1)) with (i + 1 + 1) by lia.
    destruct (decide ((i + 1) mod 25 = 0 ∨ i + 1 = total)) as [Hline|Hline].
    + replace (((i + 1) mod 25 =? 0) || (i =? total - 1)) with true; [done|].
      symmetry. apply orb_true_iff.
      destruct Hline; [left; by apply Z.eqb_eq|right; apply Z.eqb_eq; lia].
    + replace (((i + 1) mod 25 =? 0) || (i =? total - 1)) with false; [done|].
      symmetry. apply orb_false_iff.
      split; apply Z.eqb_neq; intros Heq; apply Hline; [by left|right; lia].
Qed.

Lemma commit_loop_no_push (ok : nat → bool) (total i : Z) (n : nat)
    (dates : list datetime) (branch : string) :
  GitPush branch ∉ (commit_loop ok total i n dates).1.1.1.
Proof.
  revert i n. induction dates as [|d dates IH]; intros i n; simpl.
  - apply not_elem_of_nil.
  - destruct (ok n); simpl; [|no_push].
    destruct (ok (S n)); simpl; [|no_push].
    specialize (IH (i + 1) (S (S n))).
    destruct (commit_loop ok total (i + 1) (S (S n)) dates)
      as [[[calls commits] lines] finished]. simpl in *.
    intros Hin. repeat (apply elem_of_cons in Hin as [Hin|Hin]; [done|]).
    by apply IH.
Qed.

Lemma numbered_commits_lookup (total i : Z) (dates : list datetime)
    (k : nat) :
  numbered_commits total i dates !! k
  = (λ d, mk_commit (i + Z.of_nat k + 1) total (date_str d)) <$> dates !! k.
Proof.
  revert i k. induction dates as [|d dates IH]; intros i k; [done|].
  destruct k as [|k]; simpl.
  - do 3 f_equal. lia.
  - rewrite IH. destruct (dates !! k); simpl; [|done]. do 3 f_equal. lia.
Qed.

(** X18: whatever git commands fail, the commits [create_git_repository]
    creates are the first ones of the schedule, in its order: the k-th is
    numbered k of the total and dated as the k-th event, to the second;
    the push is only tried, and can only succeed, once all are created. *)
Theorem create_git_repository_in_order (ok : nat → bool)
    (pat : option string) (repo branch : string)
    (commit_dates : list datetime) :
  let r := create_git_repository ok pat repo branch commit_dates in
  let total := Z.of_nat (length commit_dates) in
  created r `prefix_of` numbered_commits total 0 commit_dates ∧
  (∀ k c, created r !! k = Some c →
     ∃ d, commit_dates !! k = Some d ∧
          c = mk_commit (Z.of_nat k + 1) total (date_str d)) ∧
  (pushed r = true ∨ GitPush branch ∈ git_calls r →
   created r = numbered_commits total 0 commit_dates).
Proof.
  intros r total.
  assert (created r `prefix_of` numbered_commits total 0 commit_dates ∧
          (pushed r = true ∨ GitPush branch ∈ git_calls r →
           created r = numbered_commits total 0 commit_dates))
    as [Hprefix Hall].
  { subst r. unfold create_git_repository.
    destruct (ok 0%nat); simpl; [|split; [apply prefix_nil|no_push]].
    destruct (ok 1%nat); simpl; [|split; [apply prefix_nil|no_push]].
    destruct (ok 2%nat); simpl; [|split; [apply prefix_nil|no_push]].
    destruct (commit_loop_prefix ok total 0 3 commit_dates)
      as [Hprefix Hall].
    pose proof (commit_loop_no_push ok total 0 3 commit_dates branch)
      as Hnopush.
    fold total.
    destruct (commit_loop ok total 0 3 commit_dates)
      as [[[calls commits] lines] finished]. simpl in *.
    destruct finished; simpl.
    - split; [done|]. intros _. by apply Hall.
    - split; [done|]. intros [|Hin]; [done|]. exfalso.
      repeat (apply elem_of_cons in Hin as [Hin|Hin]; [done|]).
      by apply Hnopush. }
  split_and!; [done| |done].
  intros k c Hc. destruct Hprefix as [rest Hrest].
  pose proof (numbered_commits_lookup total 0 commit_dates k) as Hk.
  rewrite Hrest, (lookup_app_l_Some _ _ _ _ Hc) in Hk.
  destruct (commit_dates !! k) as [d|]; simpl in Hk; [|done].
  injection Hk as ->. exists d. split; [done|]. repeat f_equal; lia.
Qed.

(** Git fails at the commit of the second of two events: one commit is
    created, numbered 1/2. *)
Lemma create_git_repository_in_order_witness :
  created
    (create_git_repository (λ n, negb (Nat.eqb n 6)) None "user/repo"
       "contribution"
       [mk_datetime 739634 9 0 7 123; mk_datetime 739634 12 17 7 123])
  = [mk_commit 1 2 (739634, 9, 0, 7)].
Proof.
  destruct (create_git_repository_in_order (λ n, negb (Nat.eqb n 6)) None
              "user/repo" "contribution"
              [mk_datetime 739634 9 0 7 123; mk_datetime 739634 12 17 7 123])
    as (_ & Hnth & _).
  destruct (created _) as [|c [|c' l]] eqn:Hcreated;
    [by vm_compute in Hcreated| |by vm_compute in Hcreated].
  destruct (Hnth 0%nat c eq_refl) as (d & [= <-] & ->). reflexivity.
Defined.

(** X19: when no git command fails, [create_git_repository] creates one
    commit per event and pushes, and the progress lines it prints are
    those of the commit numbers that are multiples of 25 and of the last
    commit. *)
Theorem create_git_repository_progress (ok : nat → bool)
    (pat : option string) (repo branch : string)
    (commit_dates : list datetime) :
  (∀ n, ok n = true) →
  let r := create_git_repository ok pat repo branch commit_dates in
  let total := Z.of_nat (length commit_dates) in
  created r = numbered_commits total 0 commit_dates ∧
  length (created r) = length commit_dates ∧
  pushed r = true ∧
  printed r
  = MsgCreating
    :: ((λ j, MsgProgress j total)
          <$> filter (λ j, j mod 25 = 0 ∨ j = total) (seqZ 1 total))
    ++ [MsgAllCreated; MsgPushing; MsgPushed repo].
Proof.
  intros Hok r total. subst r. unfold create_git_repository.
  rewrite !Hok. cbn [negb]. fold total.
  rewrite (commit_loop_all_ok ok total 0 3 commit_dates Hok).
  cbn [created pushed printed]. rewrite Hok.
  split_and!; [done| |done|done].
  clear. generalize 0. subst total. generalize (Z.of_nat (length commit_dates)).
  induction commit_dates as [|d dates IH]; intros total i; [done|].
  simpl. by rewrite IH.
Qed.

Lemma create_git_repository_progress_witness :
  printed
    (create_git_repository (λ _, true) None "user/repo" "contribution"
       (replicate 26 (mk_datetime 739634 9 0 7 123)))
  = [MsgCreating; MsgProgress 25 26; MsgProgress 26 26; MsgAllCreated;
     MsgPushing; MsgPushed "user/repo"].
Proof.
  destruct (create_git_repository_progress (λ _, true) None "user/repo"
              "contribution" (replicate 26 (mk_datetime 739634 9 0 7 123))
              (λ _, eq_refl)) as (_ & _ & _ & ->).
  reflexivity.
Defined.

(** * The pop-up preview of a template *)

Lemma preview_pixel_table :
  Forall (λ v, preview_pixel v = 255 * v / 4 ∧
               quantize_pixel (preview_pixel v) = 4 - v) (range 5).
Proof. compute_done. Qed.

(** X20: the pop-up preview of [wizard_mode] draws a template cell of
    level v in 0..4 as the byte floor(255 * v / 4): level 0 black and
    level 4 white, the negative of an image that quantizes to the
    template, since quantizing that byte gives 4 - v. *)
Theorem preview_pixel_is_negative (v : Z) :
  0 ≤ v ≤ 4 →
  preview_pixel v = 255 * v / 4 ∧
  0 ≤ preview_pixel v ≤ 255 ∧
  quantize_pixel (preview_pixel v) = 4 - v.
Proof.
  intros Hv.
  destruct (proj1 (Forall_forall _ _) preview_pixel_table v
              ltac:(apply elem_of_range; lia)) as [Hfloor Hneg].
  split_and!; [done| | |done]; rewrite Hfloor.
  - apply Z.div_pos; lia.
  - apply Z.div_le_upper_bound; lia.
Qed.

Lemma preview_pixel_is_negative_witness :
  preview_pixel 3 = 191 ∧ quantize_pixel (preview_pixel 3) = 1.
Proof.
  destruct (preview_pixel_is_negative 3 ltac:(lia)) as (Hfloor & _ & Hneg).
  split; [rewrite Hfloor; reflexivity | exact Hneg].
Defined.

(** * The further properties at concrete inputs *)

(** The built-in template ["heart"], pushed with git configured and the
    answer YES. *)
Lemma push_to_github_writes_only_confirmed_witness :
  lower "YES" = "yes"%string.
Proof.
  pose (no_image := λ _ : option string, @Raise image ValueError).
  pose (no_text := λ _ : string, @Raise image ValueError).
  pose (r := push_to_github corner_resize no_image no_text
               (check_git_requirements ExitZero ExitZero ExitZero).1 true
               (mk_datetime 740000 13 45 7 123) "YES" _load_templates
               "user/repo" "contribution" 0 None None (Some "heart"%string)
               false).
  pose (commits := match returned r with Ok l => l | Raise _ => [] end).
  destruct (push_to_github_writes_only_confirmed corner_resize no_image
              no_text ExitZero ExitZero ExitZero true
              (mk_datetime 740000 13 45 7 123) "YES" _load_templates
              "user/repo" "contribution" 0 None None (Some "heart"%string)
              false commits) as (_ & _ & _ & _ & Hyes & _).
  - by vm_compute.
  - vm_compute. discriminate.
  - exact Hyes.
Defined.







(** * Rendering text *)

Section TextImageProperties.

Context {font : Type}.
Variable truetype : string → Z → option font.
Variable load_default : option font.
Variable bundled_font : string.
Variable textbbox : string → font → Z * Z * Z * Z.
Variable draw_text : Z * Z → string → font → image.

Lemma first_font_Some (font_size : Z) (paths : list string) (i : nat)
    (font_path : string) (f : font) :
  paths !! i = Some font_path →
  truetype font_path font_size = Some f →
  (∀ j q, (j < i)%nat → paths !! j = Some q →
          truetype q font_size = None) →
  first_font truetype font_size paths = Some f.
Proof.
  revert i. induction paths as [|p paths IH]; intros i Hi Hload Hbefore;
    [done|].
  destruct i as [|i]; simpl in *.
  - injection Hi as ->. by rewrite Hload.
  - rewrite (Hbefore 0%nat p ltac:(lia) eq_refl).
    apply (IH i); [done..|].
    intros j q Hj Hq. apply (Hbefore (S j) q); [lia|done].
Qed.

Lemma first_font_None (font_size : Z) (paths : list string) :
  Forall (λ p, truetype p font_size = None) paths →
  first_font truetype font_size paths = None.
Proof.
  induction 1 as [|p paths Hp Hpaths IH]; [done|]. simpl. by rewrite Hp.
Qed.

(** X21: [generate_text_image] draws with the first font that loads among
    the file beside the script, DejaVuSansMono.ttf, Courier.ttf and
    courier.ttf, in this order and without a warning; with the default
    font and the warning when none of the four loads; and it exits with
    code 1 when the default font does not load either.  The canvas is the
    bounding box of the text plus 4 in each direction. *)
Theorem generate_text_image_font (text : string) (font_size : Z) :
  let canvas f :=
    let '(x0, y0, x1, y1) := textbbox text f in
    draw_text (x1 - x0 + 4, y1 - y0 + 4) text f in
  (∀ i font_path f,
     font_paths bundled_font !! i = Some font_path →
     truetype font_path font_size = Some f →
     (∀ j q, (j < i)%nat → font_paths bundled_font !! j = Some q →
             truetype q font_size = None) →
     generate_text_image truetype load_default bundled_font textbbox
       draw_text text font_size = Ok (canvas f, false)) ∧
  (Forall (λ p, truetype p font_size = None) (font_paths bundled_font) →
   generate_text_image truetype load_default bundled_font textbbox draw_text
     text font_size
   = match load_default with
     | Some f => Ok (canvas f, true)
     | None => Raise (SystemExit 1)
     end).
Proof.
  intros canvas. split.
  - intros i font_path f Hi Hload Hbefore. unfold generate_text_image.
    rewrite (first_font_Some font_size _ i font_path f) by done. simpl.
    subst canvas. simpl. by destruct (textbbox text f) as [[[x0 y0] x1] y1].
  - intros Hnone. unfold generate_text_image.
    rewrite first_font_None by done.
    destruct load_default as [f|]; simpl; [|done].
    subst canvas. simpl. by destruct (textbbox text f) as [[[x0 y0] x1] y1].
Qed.

End TextImageProperties.

(** Only Courier.ttf is installed; the text measures 30 by 8. *)
Lemma generate_text_image_font_witness :
  generate_text_image
    (λ path _, if String.eqb path "Courier.ttf" then Some 3%nat else None)
    (Some 0%nat) "./DejaVuSansMono.ttf" (λ _ _, (0, 0, 30, 8))
    (λ size _ f, [[size.1; size.2; Z.of_nat f]]) "HIRE ME" 8
  = Ok ([[34; 12; 3]], false).
Proof.
  apply (proj1 (generate_text_image_font
                  (λ path _, if String.eqb path "Courier.ttf"
                             then Some 3%nat else None)
                  (Some 0%nat) "./DejaVuSansMono.ttf"
                  (λ _ _, (0, 0, 30, 8))
                  (λ size _ f, [[size.1; size.2; Z.of_nat f]]) "HIRE ME" 8)
           2%nat "Courier.ttf"%string 3%nat).
  - reflexivity.
  - reflexivity.
  - intros j q Hj Hq. destruct j as [|[|j]]; [| |lia];
      injection Hq as <-; reflexivity.
Defined.
